(** * Layout and pagination of the penetration-test report generator

    A shallow embedding of [docs/generate_report_pdf.py]: the [PentestReport]
    canvas (a subclass of fpdf2's [FPDF]), its element builders and the parts
    of the module-level document assembler that decide page breaks, colours,
    cover counts and rendering order.

    Lengths are millimetres.  Python floats are idealised as rationals [Q],
    so that [5.5], [score / 100] and the A4 page size are exact.  The canvas
    is threaded explicitly: every method [m(self, args)] becomes a function
    [m args : FPDF -> FPDF], and every primitive that paints appends one
    record to the [trace] of the canvas, tagged with the page it lands on. *)

From Stdlib Require Import QArith Lqa Ascii String.
From stdpp Require Import gmap strings list pretty.

Local Open Scope Q_scope.

(** ** Colour palette *)

Definition RGB : Type := (Z * Z * Z)%type.

Definition C_DARK      : RGB := (15,  23,  42)%Z.
Definition C_MID       : RGB := (51,  65,  85)%Z.
Definition C_LIGHT     : RGB := (226, 232, 240)%Z.
Definition C_WHITE     : RGB := (255, 255, 255)%Z.
Definition C_RED       : RGB := (220, 38,  38)%Z.
Definition C_ORANGE    : RGB := (234, 88,  12)%Z.
Definition C_YELLOW    : RGB := (202, 138,  4)%Z.
Definition C_GREEN     : RGB := (22,  163,  74)%Z.
Definition C_BLUE      : RGB := (37,  99,  235)%Z.
Definition C_BLUE_DARK : RGB := (30,  64,  175)%Z.
Definition C_BLUE_LITE : RGB := (219, 234, 254)%Z.
Definition C_CODE_BG   : RGB := (30,  30,  30)%Z.
Definition C_CODE_FG   : RGB := (212, 212, 212)%Z.
Definition C_POS_BG    : RGB := (220, 252, 231)%Z.
Definition C_NEG_BG    : RGB := (254, 226, 226)%Z.

(** The two style dictionaries of the module. *)
Definition SEVERITY_COLOR : gmap string RGB :=
  <["Critical" := C_RED]> (<["High" := C_ORANGE]>
  (<["Medium" := C_YELLOW]> (<["Low" := C_GREEN]> ∅))).


(** Python's [d.get(key, dflt)]. *)
Definition dict_get {V : Type} (d : gmap string V) (key : string) (dflt : V) : V :=
  default dflt (d !! key).

(** ** Python string helpers *)

Definition newline : ascii := "010"%char.
Definition space : ascii := " "%char.

(** [s.split(sep)] for a one-character separator: never empty, one more
    piece than there are separators. *)
Fixpoint split (sep : ascii) (s : string) : list string :=
  match s with
  | EmptyString => [EmptyString]
  | String ch rest =>
      if Ascii.eqb ch sep then EmptyString :: split sep rest
      else match split sep rest with
           | [] => [String ch EmptyString]
           | piece :: pieces => String ch piece :: pieces
           end
  end.

(** [needle in hay]. *)
Fixpoint contains (needle hay : string) : bool :=
  String.prefix needle hay ||
  match hay with
  | EmptyString => false
  | String _ rest => contains needle rest
  end.

Definition lower_ascii (ch : ascii) : ascii :=
  let n := nat_of_ascii ch in
  if (65 <=? n)%nat && (n <=? 90)%nat then ascii_of_nat (n + 32) else ch.

(** [s.lower()], on the ASCII letters. *)
Fixpoint lower (s : string) : string :=
  match s with
  | EmptyString => EmptyString
  | String ch rest => String (lower_ascii ch) (lower rest)
  end.

(** ** The canvas *)

Record Font := mkFont { family : string; style : string; size : Q }.

Inductive XPos := LEFT | RIGHT | LMARGIN.
Inductive YPos := TOP | NEXT.

(** What a drawing primitive hands to the PDF writer. *)
Inductive DrawOp :=
| Rect (x y w h : Q) (rstyle : string) (fill draw : RGB)
| Cell (x y w h : Q) (txt align : string) (fill : option RGB) (fg : RGB) (f : Font)
| Line (x1 y1 x2 y2 : Q) (draw : RGB).

(** Which callback of the page machinery is running while an operation is
    painted: the running [header], the [footer], or the document body. *)
Inductive Layer := InHeader | InFooter | InBody.

Record Paint := mkPaint { on_page : nat; layer : Layer; op : DrawOp }.

Record FPDF := mkFPDF {
  page       : nat;
  pdf_x      : Q;
  pdf_y      : Q;
  font       : Font;
  fill_color : RGB;
  text_color : RGB;
  draw_color : RGB;
  line_width : Q;
  in_footer  : bool;
  cur_layer  : Layer;
  trace      : list Paint
}.

(** fpdf2 geometry for [FPDF("P", "mm", "A4")]: the page size is given in
    points and divided by the scale factor. *)
Definition k : Q := 72 / 25.4.
Definition pdf_w : Q := 595.28 / k.
Definition pdf_h : Q := 841.89 / k.
Definition c_margin : Q := 1.

(** [set_auto_page_break(auto=True, margin=20)], [set_margins(18, 18, 18)]. *)
Definition b_margin : Q := 20.
Definition l_margin : Q := 18.
Definition t_margin : Q := 18.
Definition r_margin : Q := 18.
Definition page_break_trigger : Q := pdf_h - b_margin.
Definition epw : Q := pdf_w - l_margin - r_margin.

Definition Qgtb (a b : Q) : bool := negb (Qle_bool a b).

Definition with_xy (x y : Q) (c : FPDF) : FPDF :=
  mkFPDF (page c) x y (font c) (fill_color c) (text_color c) (draw_color c)
         (line_width c) (in_footer c) (cur_layer c) (trace c).
Definition get_x (c : FPDF) : Q := pdf_x c.
Definition get_y (c : FPDF) : Q := pdf_y c.
(** fpdf2 reads a negative abscissa from the right edge of the page and a
    negative ordinate from its bottom. *)
Definition from_right (x : Q) : Q := if Qle_bool 0 x then x else pdf_w + x.
Definition from_bottom (y : Q) : Q := if Qle_bool 0 y then y else pdf_h + y.
Definition set_x (x : Q) (c : FPDF) : FPDF := with_xy (from_right x) (pdf_y c) c.
(** [set_y] also moves x back to the left margin. *)
Definition set_y (y : Q) (c : FPDF) : FPDF := with_xy l_margin (from_bottom y) c.
(** [set_xy(x, y)] is [set_y(y)] followed by [set_x(x)]. *)
Definition set_xy (x y : Q) (c : FPDF) : FPDF := set_x x (set_y y c).
Definition ln (h : Q) (c : FPDF) : FPDF := with_xy l_margin (pdf_y c + h) c.

Definition set_font (fam sty : string) (sz : Q) (c : FPDF) : FPDF :=
  mkFPDF (page c) (pdf_x c) (pdf_y c) (mkFont fam sty sz) (fill_color c)
         (text_color c) (draw_color c) (line_width c) (in_footer c)
         (cur_layer c) (trace c).
Definition set_fill_color (col : RGB) (c : FPDF) : FPDF :=
  mkFPDF (page c) (pdf_x c) (pdf_y c) (font c) col (text_color c)
         (draw_color c) (line_width c) (in_footer c) (cur_layer c) (trace c).
Definition set_text_color (col : RGB) (c : FPDF) : FPDF :=
  mkFPDF (page c) (pdf_x c) (pdf_y c) (font c) (fill_color c) col
         (draw_color c) (line_width c) (in_footer c) (cur_layer c) (trace c).
Definition set_draw_color (col : RGB) (c : FPDF) : FPDF :=
  mkFPDF (page c) (pdf_x c) (pdf_y c) (font c) (fill_color c) (text_color c)
         col (line_width c) (in_footer c) (cur_layer c) (trace c).
Definition set_line_width (lw : Q) (c : FPDF) : FPDF :=
  mkFPDF (page c) (pdf_x c) (pdf_y c) (font c) (fill_color c) (text_color c)
         (draw_color c) lw (in_footer c) (cur_layer c) (trace c).
Definition set_layer (l : Layer) (foot : bool) (c : FPDF) : FPDF :=
  mkFPDF (page c) (pdf_x c) (pdf_y c) (font c) (fill_color c) (text_color c)
         (draw_color c) (line_width c) foot l (trace c).

(** Append one paint record for the current page. *)
Definition emit (o : DrawOp) (c : FPDF) : FPDF :=
  mkFPDF (page c) (pdf_x c) (pdf_y c) (font c) (fill_color c) (text_color c)
         (draw_color c) (line_width c) (in_footer c) (cur_layer c)
         (trace c ++ [mkPaint (page c) (cur_layer c) o]).

Definition rect (x y w h : Q) (rstyle : string) (c : FPDF) : FPDF :=
  emit (Rect x y w h rstyle (fill_color c) (draw_color c)) c.

Definition line (x1 y1 x2 y2 : Q) (c : FPDF) : FPDF :=
  emit (Line x1 y1 x2 y2 (draw_color c)) c.

(** The painting half of [cell]: a width of 0 extends to the right margin;
    afterwards the cursor moves as [new_x], [new_y] say. *)
Definition cell_render (w h : Q) (txt align : string) (fill : bool)
    (new_x : XPos) (new_y : YPos) (c : FPDF) : FPDF :=
  let w' := if Qeq_bool w 0 then pdf_w - r_margin - pdf_x c else w in
  let c1 := emit (Cell (pdf_x c) (pdf_y c) w' h txt align
                       (if fill then Some (fill_color c) else None)
                       (text_color c) (font c)) c in
  let x' := match new_x with
            | LEFT => pdf_x c
            | RIGHT => pdf_x c + w'
            | LMARGIN => l_margin
            end in
  let y' := match new_y with TOP => pdf_y c | NEXT => pdf_y c + h end in
  with_xy x' y' c1.

(** The automatic page break test of fpdf2. *)
Definition will_page_break (h : Q) (c : FPDF) : bool :=
  Qgtb (pdf_y c + h) page_break_trigger && negb (in_footer c).

(** A method body is a sequence of statements, each a canvas transformer. *)
Definition run (stmts : list (FPDF -> FPDF)) (c : FPDF) : FPDF :=
  fold_left (fun acc stmt => stmt acc) stmts c.

Section Report.

(** What the build takes from outside: the metadata record, the clock, the
    font metrics of the drawing provider and Python's number formatting. *)
Variable TARGET : string.
Variable SHORT_SID : string.
Variable utcnow : string.
Variable string_width : Font -> string -> Q.
Variable str : Q -> string.

Definition get_string_width (txt : string) (c : FPDF) : Q :=
  string_width (font c) txt.

(** *** Header and footer

    Inside [header] and [footer] the cells are painted without a page break
    test: [footer] runs with [in_footer] set, and [header] paints at
    y = 1.5 with height 6, far above the trigger. *)
Definition header (c : FPDF) : FPDF :=
  if (page c =? 1)%nat then c
  else run [ set_fill_color C_DARK;
             rect 0 0 210 10 "F";
             set_font "Sans" "B" 8;
             set_text_color C_WHITE;
             set_xy 0 1.5;
             cell_render 0 6
               ("  AutoRed.AI — Penetration Test Report  |  " ++ TARGET
                  ++ "  |  CONFIDENTIAL") "L" false RIGHT TOP;
             set_text_color C_DARK;
             ln 4 ] c.

Definition footer (c : FPDF) : FPDF :=
  run [ set_y (-14);
        set_font "Sans" "" 7.5;
        set_text_color (148, 163, 184)%Z;
        cell_render 0 5
          ("AutoRed.AI v1.0  |  Session " ++ SHORT_SID ++ "  |  "
             ++ "Generated " ++ utcnow) "C" false RIGHT TOP;
        set_text_color C_DARK ] c.

(** fpdf2's [add_page]: close the current page with its footer, open the
    next one at the top-left margin, run [header], and restore the font,
    colours and line width that were current before the call. *)
Definition add_page (c : FPDF) : FPDF :=
  let c1 := if (0 <? page c)%nat then footer (set_layer InFooter true c) else c in
  let c2 := mkFPDF (S (page c1)) l_margin t_margin (font c) (fill_color c)
                   (text_color c) (draw_color c) (line_width c)
                   false InHeader (trace c1) in
  let c3 := header c2 in
  mkFPDF (page c3) (pdf_x c3) (pdf_y c3) (font c) (fill_color c)
         (text_color c) (draw_color c) (line_width c)
         (in_footer c) (cur_layer c) (trace c3).

(** fpdf2's [output]: the last page gets its footer when the document is
    closed. *)
Definition output (c : FPDF) : FPDF :=
  let c0 := if (page c =? 0)%nat then add_page c else c in
  let c1 := footer (set_layer InFooter true c0) in
  mkFPDF (page c1) (pdf_x c1) (pdf_y c1) (font c0) (fill_color c0)
         (text_color c0) (draw_color c0) (line_width c0)
         (in_footer c0) (cur_layer c0) (trace c1).

(** A page break keeps x and takes y from the new page. *)
Definition perform_page_break_if_need_be (h : Q) (c : FPDF) : FPDF :=
  if will_page_break h c
  then let c' := add_page c in with_xy (pdf_x c) (pdf_y c') c'
  else c.

Definition cell (w h : Q) (txt align : string) (fill : bool)
    (new_x : XPos) (new_y : YPos) (c : FPDF) : FPDF :=
  cell_render w h txt align fill new_x new_y (perform_page_break_if_need_be h c).

(** *** Text flow

    Modelled from the spec: the line breaking of the drawing provider, which
    is not part of this repository.  Section 4.2 describes it as a greedy
    word wrap against the available width, shared by the dry run and by
    painting.  A paragraph is split at spaces; a word is appended to the
    current line while the line still fits, and starts a new line otherwise
    (a single word wider than the line keeps a line of its own). *)
Fixpoint wrap_words (f : Font) (maxw : Q) (cur : string) (ws : list string)
    : list string :=
  match ws with
  | [] => [cur]
  | w :: rest =>
      let cand := (cur ++ " " ++ w)%string in
      if Qle_bool (string_width f cand) maxw
      then wrap_words f maxw cand rest
      else cur :: wrap_words f maxw w rest
  end.

Definition wrap_paragraph (f : Font) (maxw : Q) (p : string) : list string :=
  match split space p with
  | [] => [EmptyString]
  | w :: ws => wrap_words f maxw w ws
  end.

Definition wrap_lines (f : Font) (maxw : Q) (txt : string) : list string :=
  concat (map (wrap_paragraph f maxw) (split newline txt)).

(** The lines [multi_cell(w, h, txt)] breaks [txt] into on canvas [c]: the
    text may use the cell width less the interior margin on both sides. *)
Definition multi_cell_lines (w : Q) (txt : string) (c : FPDF) : list string :=
  let w' := if Qeq_bool w 0 then pdf_w - r_margin - pdf_x c else w in
  wrap_lines (font c) (w' - 2 * c_margin) txt.

(** [multi_cell(w, h, txt, dry_run=True, output="LINES")]: the lines, and
    the canvas is left as it was. *)
Definition multi_cell_dry_run (w h : Q) (txt : string) (c : FPDF) : list string :=
  multi_cell_lines w txt c.

(** [multi_cell(w, h, txt)]: one cell per line, each below the previous one
    and each with its own page break test. *)
Definition multi_cell (w h : Q) (txt : string) (c : FPDF) : FPDF :=
  let w' := if Qeq_bool w 0 then pdf_w - r_margin - pdf_x c else w in
  let c' := fold_left (fun acc ln_txt => cell w' h ln_txt "J" false LEFT NEXT acc)
                      (multi_cell_lines w txt c) c in
  with_xy (pdf_x c + w') (pdf_y c') c'.

(** *** Element builders *)

Definition h1 (txt : string) (c : FPDF) : FPDF :=
  run [ ln 4;
        set_fill_color C_BLUE_DARK;
        set_text_color C_WHITE;
        set_font "Sans" "B" 13;
        cell 0 9 ("  " ++ txt) "L" true LMARGIN NEXT;
        set_text_color C_DARK;
        ln 2 ] c.

Definition h2 (txt : string) (c : FPDF) : FPDF :=
  run [ ln 3;
        set_font "Sans" "B" 11;
        set_text_color C_BLUE;
        cell 0 7 txt "L" false LMARGIN NEXT;
        set_draw_color C_BLUE_LITE;
        set_line_width 0.4;
        (fun s => line (get_x s) (get_y s) (get_x s + 174) (get_y s) s);
        set_text_color C_DARK;
        ln 1 ] c.

Definition h3 (txt : string) (c : FPDF) : FPDF :=
  run [ ln 2;
        set_font "Sans" "B" 10;
        set_text_color C_MID;
        cell 0 6 txt "L" false LMARGIN NEXT;
        set_text_color C_DARK ] c.

Definition body (txt : string) (indent : Q) (c : FPDF) : FPDF :=
  run [ set_font "Sans" "" 9.5;
        set_text_color C_MID;
        set_x (l_margin + indent);
        multi_cell 0 5.5 txt;
        set_text_color C_DARK;
        ln 1 ] c.

Definition kv_row (key val : string) (fill : bool) (c : FPDF) : FPDF :=
  run [ set_font "Sans" "B" 9;
        set_fill_color (if fill then C_LIGHT else C_WHITE);
        set_text_color C_MID;
        cell 48 6.5 ("  " ++ key) "L" true RIGHT TOP;
        set_font "Sans" "" 9;
        set_text_color C_DARK;
        cell 0 6.5 ("  " ++ val) "L" true LMARGIN NEXT ] c.

Definition badge (txt : string) (fg bg : RGB) (c : FPDF) : FPDF :=
  run [ set_font "Sans" "B" 8;
        set_text_color fg;
        set_fill_color bg;
        (fun s => cell (get_string_width txt s + 6) 5.5 txt "L" true RIGHT TOP s) ] c.

(** The two colours [severity_badge] computes for a severity string. *)
Definition severity_fg (sev : string) : RGB := dict_get SEVERITY_COLOR sev C_MID.

Definition severity_bg (sev : string) : RGB :=
  if String.eqb sev "Critical" then (254, 226, 226)%Z
  else if String.eqb sev "High" then (255, 237, 213)%Z
  else if String.eqb sev "Medium" then (254, 249, 195)%Z
  else (220, 252, 231)%Z.

Definition severity_badge (sev : string) (c : FPDF) : FPDF :=
  let color := severity_fg sev in
  let bg := severity_bg sev in
  badge sev color bg c.

Definition Qltb (a b : Q) : bool := negb (Qle_bool b a).

(** The locals of [score_bar]. *)
Definition score_bar_fill_w (score width : Q) : Q := (score / 100) * width.

Definition score_bar_color (score : Q) : RGB :=
  if Qltb score 50 then C_RED else if Qltb score 70 then C_YELLOW else C_GREEN.

Definition score_bar_label_x (x score width : Q) : Q :=
  x + score_bar_fill_w score width - 14.

(** [score_bar(score, width=60, height=5)]: render a horizontal score bar
    (0-100). *)
Definition score_bar (score width height : Q) (c : FPDF) : FPDF :=
  let x := get_x c in
  let y := get_y c in
  let fill_w := score_bar_fill_w score width in
  let color := score_bar_color score in
  run [ set_fill_color C_LIGHT;
        rect x y width height "F";
        set_fill_color color;
        rect x y fill_w height "F";
        set_font "Sans" "B" 7.5;
        set_text_color (if Qltb score 50 then C_WHITE else C_DARK);
        set_xy (x + fill_w - 14) y;
        cell 14 height (str score ++ "/100") "R" false RIGHT TOP;
        set_text_color C_DARK ] c.

Definition len {A : Type} (l : list A) : Q := inject_Z (Z.of_nat (List.length l)).

Definition code_block_height (code : string) : Q :=
  len (split newline code) * 4.5 + 4 * 2.

(** The page break decision that opens [code_block]. *)
Definition code_block_place (code : string) (c : FPDF) : FPDF :=
  let height := code_block_height code in
  let available := pdf_h - b_margin - get_y c in
  if Qgtb height available then add_page c else c.

Definition code_block (code lang : string) (c : FPDF) : FPDF :=
  let lines := split newline code in
  let line_h := 4.5 in
  let pad := 4 in
  let height := code_block_height code in
  let c0 := code_block_place code c in
  let x0 := get_x c0 in
  let y0 := get_y c0 in
  let w := epw in
  run [ set_fill_color C_CODE_BG;
        rect x0 y0 w height "F";
        (fun s => match lang with
                  | EmptyString => s
                  | _ => run [ set_font "Mono" "" 7;
                               set_text_color (100, 116, 139)%Z;
                               (fun s' => set_xy (x0 + w - get_string_width lang s' - 4)
                                                 (y0 + 1.5) s');
                               cell 0 3 lang "L" false RIGHT TOP ] s
                  end);
        set_font "Mono" "" 8;
        set_text_color C_CODE_FG;
        set_xy (x0 + pad) (y0 + pad);
        (fun s => fold_left
                    (fun acc ln_txt =>
                       run [ set_x (x0 + pad);
                             cell (w - pad * 2) line_h ln_txt "L" false LMARGIN NEXT ] acc)
                    lines s);
        set_text_color C_DARK;
        set_xy x0 (y0 + height + 2) ] c0.

Definition divider (c : FPDF) : FPDF :=
  run [ ln 2;
        set_draw_color C_LIGHT;
        set_line_width 0.3;
        (fun s => line l_margin (get_y s) (l_margin + 174) (get_y s) s);
        ln 3 ] c.


(** ** Input records *)

Record Snippet := mkSnippet {
  s_label : string; s_description : string; s_code : string; s_language : string }.


Record AntiPattern := mkPattern {
  p_type : string; p_title : string; p_detail : string }.

Record Finding := mkFinding {
  f_title : string; f_severity : string; f_cvss : string; f_address : string;
  f_procedure : string; f_risk : string; f_fix : string }.

Variable SESSION_ID : string.
Variable COMPLETED : string.

Definition str_nat (n : nat) : string := str (inject_Z (Z.of_nat n)).

(** ** Cover page *)

Definition cover_row (key val : string) (fill : bool) (c : FPDF) : FPDF :=
  run [ set_font "Sans" "B" 9.5;
        set_fill_color (if fill then C_LIGHT else C_WHITE);
        set_text_color C_MID;
        cell 50 7 ("  " ++ key) "L" true RIGHT TOP;
        set_font "Sans" "" 9.5;
        set_text_color C_DARK;
        cell 0 7 ("  " ++ val) "L" true LMARGIN NEXT ] c.

(** The severity tally: a dictionary iterated in insertion order. *)
Definition counts_init : list (string * nat) :=
  [("Critical", 0%nat); ("High", 0%nat); ("Medium", 0%nat); ("Low", 0%nat)].

(** One line of the executive summary against every severity key. *)
Definition scan_line (ln_txt : string) (counts : list (string * nat))
    : list (string * nat) :=
  map (fun '(sev, n) =>
         if contains ("| " ++ sev) ln_txt
            || contains ("| " ++ lower sev) (lower ln_txt)
         then (sev, S n) else (sev, n)) counts.

Definition scanned_counts (executive_summary : string) : list (string * nat) :=
  fold_left (fun counts ln_txt => scan_line ln_txt counts)
            (split newline executive_summary) counts_init.

(** The tally the cover page renders: the scan is computed and then the
    name is rebound to fixed mock counts. *)
Definition cover_counts (executive_summary : string) : list (string * nat) :=
  let counts := scanned_counts executive_summary in
  let counts := [("Critical", 2%nat); ("High", 1%nat);
                 ("Medium", 1%nat); ("Low", 0%nat)] in
  counts.

(** One summary box; [SEVERITY_COLOR[sev]] raises on an unknown key. *)
Definition count_box (sev : string) (cnt : nat) (c : FPDF) : option FPDF :=
  color ← SEVERITY_COLOR !! sev;
  let bg := severity_bg sev in
  let x0 := get_x c in
  let y0 := get_y c in
  Some (run [ set_fill_color bg;
              set_draw_color color;
              set_line_width 0.5;
              rect x0 y0 38 20 "DF";
              set_font "Sans" "B" 18;
              set_text_color color;
              set_xy x0 (y0 + 2);
              cell 38 10 (str_nat cnt) "C" false RIGHT TOP;
              set_font "Sans" "" 8;
              set_text_color C_MID;
              set_xy x0 (y0 + 12);
              cell 38 6 sev "C" false RIGHT TOP;
              set_xy (x0 + 42) y0 ] c).

Definition count_boxes (counts : list (string * nat)) (c : FPDF) : option FPDF :=
  foldl (fun acc '(sev, cnt) => s ← acc; count_box sev cnt s) (Some c) counts.

Definition cover_page (executive_summary : string) (c : FPDF) : option FPDF :=
  let c1 :=
    run [ add_page;
          set_fill_color C_DARK;
          rect 0 0 210 55 "F";
          set_text_color C_WHITE;
          set_font "Sans" "B" 22;
          set_xy 18 12;
          cell 0 10 "Penetration Test Report" "L" false RIGHT TOP;
          set_font "Sans" "" 12;
          set_xy 18 24;
          cell 0 8 "Automated Red Teaming  |  AutoRed.AI v1.0" "L" false RIGHT TOP;
          set_fill_color C_BLUE;
          rect 18 34 80 1.5 "F";
          set_font "Sans" "B" 14;
          set_xy 18 37;
          cell 0 8 ("Target:  " ++ TARGET) "L" false RIGHT TOP;
          set_text_color C_DARK;
          set_xy 0 60;
          ln 4;
          cover_row "Target" TARGET false;
          cover_row "Session ID" SESSION_ID true;
          cover_row "Completed" COMPLETED false;
          cover_row "Engine" "AutoRed.AI v1.0 — Claude AI + Kali MCP" true;
          cover_row "Classification" "CONFIDENTIAL" false;
          ln 8;
          set_font "Sans" "B" 10;
          set_text_color C_MID;
          cell 0 6 "Findings at a Glance" "L" false LMARGIN NEXT;
          ln 2 ] c in
  c2 ← count_boxes (cover_counts executive_summary) c1;
  Some (run [ set_text_color C_DARK;
              ln 26;
              set_font "Sans" "" 8;
              set_text_color (148, 163, 184)%Z;
              cell 0 5 ("This report was generated automatically. All findings "
                          ++ "should be independently verified before remediation.")
                   "C" false RIGHT TOP;
              set_text_color C_DARK ] c2).

(** ** Section 1 (Overview) and the start of section 2 (Test Policy) *)

Definition kv_rows (rows : list (string * string)) (c : FPDF) : FPDF :=
  fold_left (fun acc '(i, (k', v)) => kv_row k' v (Nat.even i) acc)
            (imap (fun i kv => (i, kv)) rows) c.

Definition section1_overview (c : FPDF) : FPDF :=
  run [ add_page;
        h1 "1.  Overview";
        h2 "1.1  Target Profile";
        kv_rows [ ("Target", TARGET);
                  ("OS", "Linux (Ubuntu 20.04)");
                  ("Tech Stack", "Apache 2.4 · Tomcat 9.0 · MySQL 8.0 · OpenSSH 8.2");
                  ("Security Posture", "Weak");
                  ("Risk Level", "High-Value") ];
        h2 "1.2  Test Scope";
        kv_row "Target" TARGET false;
        kv_row "Services"
               "SSH (22) · HTTP (80) · HTTPS (443) · MySQL (3306) · Tomcat (8080)" true;
        kv_row "Paths Attempted" "4" false;
        kv_row "Exploited" "3 of 4" true;
        kv_row "Defenses Held" "1 — SSH brute-force blocked by fail2ban" false;
        h2 "1.3  Test Timeline";
        kv_row "Authorized Time" "2026-02-24" false;
        kv_row "Completed At" COMPLETED true;
        kv_row "Engine"
               "AutoRed.AI v1.0 — Automated Gray-Box via Claude AI + Kali MCP" false ] c.

(** Section 2 opens with its banner directly: no [add_page] precedes it. *)
Definition section2_start (c : FPDF) : FPDF := h1 "2.  Test Policy" c.

(** The openings of the remaining sections. *)
Definition section3_start (c : FPDF) : FPDF :=
  run [ add_page; h1 "3.  Test Result Summary" ] c.
Definition section4_start (c : FPDF) : FPDF :=
  run [ add_page; h1 "4.  Test Result Description" ] c.
Definition section5_start (c : FPDF) : FPDF :=
  run [ add_page; h1 "5.  Security Suggestions" ] c.
Definition section6_start (c : FPDF) : FPDF :=
  run [ add_page; h1 "6.  Remediation as Code" ] c.
Definition section7_start (c : FPDF) : FPDF :=
  run [ add_page; h1 "7.  Learned Anti-Patterns" ] c.

(** ** Section 4: the findings detail *)

Definition findings : list Finding :=
  [ mkFinding
      "SQL Injection on Login Endpoint" "Critical" "9.8"
      "192.168.1.100:80/login — Apache HTTP (port 80)"
      ("Submitted a union-based SQL injection payload to the /login form's username parameter:"
         ++ String newline (String newline
         "  username=' UNION SELECT 1,username,password,4 FROM users-- -&password=x")
         ++ String newline (String newline
         "The server returned a 200 OK response containing user credential hashes."))
      ("The login endpoint performs no input sanitization or parameterized queries. "
         ++ "Successful exploitation exposes 2,847 user records and 15,203 payment records "
         ++ "to unauthorized read access.")
      ("Use parameterized queries or prepared statements in all database interactions. "
         ++ "Deploy an AWS WAF rule to block SQLi patterns. "
         ++ "Implement input validation on all user-supplied parameters.");
    mkFinding
      "Default Credentials on Tomcat Manager" "Critical" "9.1"
      "192.168.1.100:8080/manager/html — Apache Tomcat 9.0 (port 8080)"
      ("Navigated to the Tomcat Manager web console and authenticated using "
         ++ "factory-default credentials tomcat:tomcat. Login succeeded on the first attempt.")
      ("With Manager access, an attacker can deploy arbitrary WAR files, achieving "
         ++ "remote code execution on the host. No exploit is required — only the default password.")
      ("Change all Tomcat Manager credentials immediately. "
         ++ "Disable the Manager application in production environments. "
         ++ "Restrict /manager by IP allowlist at the reverse proxy.");
    mkFinding
      "Unencrypted Remote Root MySQL Access" "High" "8.6"
      "192.168.1.100:3306/mysql — MySQL 8.0 (port 3306)"
      ("Connected from an external host without TLS using the root account:"
         ++ String newline (String newline
         "  mysql -h 192.168.1.100 -u root -p --ssl-mode=DISABLED")
         ++ String newline (String newline
         "Root login succeeded over an unencrypted connection."))
      ("Allows a network-positioned attacker to read, modify, or delete all databases. "
         ++ "Credentials can be captured via packet capture on the same subnet.")
      ("Disable remote root login. Bind MySQL to localhost (bind-address = 127.0.0.1). "
         ++ "Enforce TLS. Restrict port 3306 to the internal application subnet only.");
    mkFinding
      "Missing Web Application Firewall" "Medium" "5.3"
      "192.168.1.100:80 — Apache HTTP (port 80)"
      ("Sent SQLi, XSS, and path traversal payloads to the web application. "
         ++ "No WAF, rate limiting, or input filtering was detected — "
         ++ "all payloads reached the application unmodified.")
      ("All OWASP Top 10 attack patterns reach the application directly. "
         ++ "The SQL injection in Finding 4.1 was amplified by the absence of perimeter filtering.")
      ("Deploy AWS WAF, Cloudflare WAF, or mod_security with the OWASP Core Rule Set "
         ++ "in front of Apache. Enable rate limiting on authentication endpoints.") ].

Definition finding_block (total idx : nat) (f : Finding) (c : FPDF) : FPDF :=
  run [ h2 ("4." ++ str_nat (idx + 1) ++ "  " ++ f_title f);
        set_font "Sans" "" 9;
        set_text_color C_MID;
        cell 20 6 "Severity:" "L" false RIGHT TOP;
        severity_badge (f_severity f);
        set_font "Sans" "" 9;
        set_text_color C_MID;
        cell 12 6 "   CVSS:" "L" false RIGHT TOP;
        set_font "Sans" "B" 9;
        set_text_color (dict_get SEVERITY_COLOR (f_severity f) C_MID);
        cell 0 6 ("  " ++ f_cvss f) "L" false LMARGIN NEXT;
        set_text_color C_DARK;
        ln 1;
        h3 "Test Address";
        body (f_address f) 2;
        h3 "Test Procedure";
        body (f_procedure f) 2;
        h3 "Vulnerability Risk";
        body (f_risk f) 2;
        h3 "Vulnerability Fix Suggestion";
        body (f_fix f) 2;
        (fun s => if (idx <? total - 1)%nat then divider s else s) ] c.

Definition section4_findings (c : FPDF) : FPDF :=
  fold_left (fun acc '(idx, f) => finding_block (List.length findings) idx f acc)
            (imap (fun idx f => (idx, f)) findings)
            (section4_start c).

(** How many findings of a list carry a severity. *)
Definition count_severity (sev : string) (fs : list Finding) : nat :=
  List.length (filter (fun f => f_severity f = sev) fs).

(** ** Section 5: compliance cards *)




(** ** Section 6: remediation snippets *)

Definition snippet_block (snip : Snippet) (c : FPDF) : FPDF :=
  run [ h2 (s_label snip);
        set_font "Sans" "" 9;
        set_text_color C_MID;
        multi_cell 0 5.5 (s_description snip);
        set_text_color C_DARK;
        ln 2;
        code_block (s_code snip) (s_language snip);
        ln 3 ] c.

Definition section6_remediation (SNIPS : list Snippet) (c : FPDF) : FPDF :=
  run [ section6_start;
        body ("The following infrastructure-as-code snippets provide ready-to-deploy fixes "
                ++ "for the critical and high vulnerabilities identified in this assessment.") 0;
        (fun s => fold_left (fun acc snip => snippet_block snip acc) SNIPS s) ] c.

(** ** Section 7: anti-pattern cards *)

(** [card_h = 7 + len(lines) * 5.5 + 4]. *)
Definition card_height (lines : list string) : Q := 7 + len lines * 5.5 + 4.

(** The page break decision of a card. *)
Definition card_place (card_h : Q) (c : FPDF) : FPDF :=
  if Qgtb (get_y c + card_h) (pdf_h - b_margin) then add_page c else c.

(** The lines the dry run of a card measures, and the lines its body paint
    lays out; both on the canvas as it is when the call is made (font
    Sans 9). *)
Definition card_measured_lines (p : AntiPattern) (c : FPDF) : list string :=
  multi_cell_dry_run 158 5.5 (p_detail p) (set_font "Sans" "" 9 c).

Definition card_painted_lines (p : AntiPattern) (c : FPDF) : list string :=
  multi_cell_lines 164 (p_detail p) (set_font "Sans" "" 9 c).

(** The body of the two card loops; they differ in the fill colour, the
    accent colour and the mark before the title. *)
Definition pattern_card (bg fg : RGB) (mark : string) (p : AntiPattern)
    (c : FPDF) : FPDF :=
  let c1 := set_font "Sans" "" 9 c in
  let lines := multi_cell_dry_run 158 5.5 (p_detail p) c1 in
  let card_h := card_height lines in
  let c2 := card_place card_h c1 in
  let x0 := get_x c2 in
  let y0 := get_y c2 in
  run [ set_fill_color bg;
        set_draw_color fg;
        set_line_width 0.5;
        rect x0 y0 174 card_h "DF";
        set_xy (x0 + 3) (y0 + 2);
        set_font "Sans" "B" 9.5;
        set_text_color fg;
        cell 0 5.5 (mark ++ "  " ++ p_title p) "L" false LMARGIN NEXT;
        (fun s => set_xy (x0 + 5) (get_y s) s);
        set_font "Sans" "" 9;
        set_text_color C_MID;
        multi_cell 164 5.5 (p_detail p);
        set_xy x0 (y0 + card_h + 3);
        set_text_color C_DARK ] c2.

Definition positives (PATTERNS : list AntiPattern) : list AntiPattern :=
  filter (fun p => p_type p = "positive") PATTERNS.

Definition negatives (PATTERNS : list AntiPattern) : list AntiPattern :=
  filter (fun p => p_type p = "negative") PATTERNS.

Definition pattern_cards (PATTERNS : list AntiPattern) (c : FPDF) : FPDF :=
  let c1 :=
    match positives PATTERNS with
    | [] => c
    | ps => run [ h2 "Positive — Security Controls That Held";
                  (fun s => fold_left
                              (fun acc p => pattern_card C_POS_BG C_GREEN "✓" p acc)
                              ps s) ] c
    end in
  match negatives PATTERNS with
  | [] => c1
  | ns => run [ ln 4;
                h2 "Negative — Weaknesses Observed";
                (fun s => fold_left
                            (fun acc p => pattern_card C_NEG_BG C_RED "✗" p acc)
                            ns s) ] c1
  end.

Definition section7_anti_patterns (PATTERNS : list AntiPattern) (c : FPDF) : FPDF :=
  run [ section7_start;
        body ("Observations from the engagement — both defenses that held "
                ++ "and weaknesses that were exploited or amplified.") 0;
        ln 2;
        pattern_cards PATTERNS ] c.

(** ** Client programs of the canvas

    The assembler is a straight-line program over the canvas; to speak about
    every such program, a statement is one call of a page-level primitive.
    Painting before the first [add_page] raises in fpdf2 ("No page open"). *)
Inductive Stmt :=
| SAddPage
| SRect (x y w h : Q) (rstyle : string)
| SLine (x1 y1 x2 y2 : Q)
| SCell (w h : Q) (txt align : string) (fill : bool) (new_x : XPos) (new_y : YPos)
| SMultiCell (w h : Q) (txt : string)
| SLn (h : Q)
| SSetXY (x y : Q)
| SSetFont (fam sty : string) (sz : Q)
| SSetFillColor (col : RGB)
| SSetTextColor (col : RGB).

Definition on_open_page (f : FPDF -> FPDF) (c : FPDF) : option FPDF :=
  if (page c =? 0)%nat then None else Some (f c).

Definition exec_stmt (s : Stmt) (c : FPDF) : option FPDF :=
  match s with
  | SAddPage => Some (add_page c)
  | SRect x y w h rstyle => on_open_page (rect x y w h rstyle) c
  | SLine x1 y1 x2 y2 => on_open_page (line x1 y1 x2 y2) c
  | SCell w h txt align fill new_x new_y =>
      on_open_page (cell w h txt align fill new_x new_y) c
  | SMultiCell w h txt => on_open_page (multi_cell w h txt) c
  | SLn h => Some (ln h c)
  | SSetXY x y => Some (set_xy x y c)
  | SSetFont fam sty sz => Some (set_font fam sty sz c)
  | SSetFillColor col => Some (set_fill_color col c)
  | SSetTextColor col => Some (set_text_color col c)
  end.

Fixpoint exec (prog : list Stmt) (c : FPDF) : option FPDF :=
  match prog with
  | [] => Some c
  | s :: rest => c' ← exec_stmt s c; exec rest c'
  end.

(** Is some operation of the given layer painted on page [p]? *)
Definition painted_on (l : Layer) (p : nat) (tr : list Paint) : Prop :=
  Exists (fun pt => on_page pt = p /\ layer pt = l) tr.


(** [PentestReport()]: no page yet, the cursor at the margins. *)
Definition pdf_init : FPDF :=
  mkFPDF 0 18 10 (mkFont "" "" 12) (0, 0, 0)%Z (0, 0, 0)%Z (0, 0, 0)%Z 0.2
         false InBody [].

(** ** Spec-side notions and sample data *)

(** Clamping a value to an interval, as the score bar description words it. *)
Definition clamp (lo hi v : Q) : Q :=
  if Qltb v lo then lo else if Qltb hi v then hi else v.

(** A fixed-pitch font metric: every glyph advances 0.6 em. *)
Definition fixed_pitch_width (f : Font) (s : string) : Q :=
  inject_Z (Z.of_nat (String.length s)) * (size f * 0.6 / k).

(** The card titles of a trace: the texts of the cells painted in bold
    Sans 9.5, the font only the title line of a card uses. *)
Definition is_card_title_font (f : Font) : bool :=
  String.eqb (family f) "Sans" && String.eqb (style f) "B" && Qeq_bool (size f) 9.5.

Definition card_title (pt : Paint) : option string :=
  match op pt with
  | Cell _ _ _ _ txt _ _ _ f => if is_card_title_font f then Some txt else None
  | _ => None
  end.

Definition card_titles (tr : list Paint) : list string := omap card_title tr.

(** Paints that belong to page [p] and layer [l] and are no card title. *)
Definition chrome (p : nat) (l : Layer) (pt : Paint) : Prop :=
  on_page pt = p /\ layer pt = l /\ card_title pt = None.

(** The page invariant of a build: the body is being painted, every header
    paint sits on a page from 2 on, every footer paint on a closed page, and
    each such page has its header and footer. *)
Definition layer_ok (cur : nat) (pt : Paint) : Prop :=
  match layer pt with
  | InHeader => (2 <= on_page pt <= cur)%nat
  | InFooter => (1 <= on_page pt < cur)%nat
  | InBody => True
  end.

Definition page_inv (c : FPDF) : Prop :=
  cur_layer c = InBody /\ in_footer c = false
  /\ Forall (layer_ok (page c)) (trace c)
  /\ (forall p, (2 <= p <= page c)%nat -> painted_on InHeader p (trace c))
  /\ (forall p, (1 <= p < page c)%nat -> painted_on InFooter p (trace c)).



(** [c'] is [c] after some more painting. *)
Definition extends (c c' : FPDF) : Prop := exists d, trace c' = trace c ++ d.

(** The section banners of a trace with the page each is painted on: the
    filled cells in bold Sans 13, which only [h1] paints. *)
Definition banner (pt : Paint) : option (string * nat) :=
  match op pt with
  | Cell _ _ _ _ txt _ (Some _) _ f =>
      if String.eqb (family f) "Sans" && String.eqb (style f) "B"
         && Qeq_bool (size f) 13
      then Some (txt, on_page pt) else None
  | _ => None
  end.

Definition banners (tr : list Paint) : list (string * nat) := omap banner tr.

(** The body lines of cards in a trace, as (y, height): the cells painted
    in regular Sans 9, the font of a card body. *)
Definition card_body_cell (pt : Paint) : option (Q * Q) :=
  match op pt with
  | Cell _ y _ h _ _ _ _ f =>
      if String.eqb (family f) "Sans" && String.eqb (style f) ""
         && Qeq_bool (size f) 9
      then Some (y, h) else None
  | _ => None
  end.

Definition card_body_cells (tr : list Paint) : list (Q * Q) := omap card_body_cell tr.

(** The heights of the card frames of a trace: its "DF" rectangles. *)
Definition card_frame_height (pt : Paint) : option Q :=
  match op pt with
  | Rect _ _ _ h rstyle _ _ => if String.eqb rstyle "DF" then Some h else None
  | _ => None
  end.

Definition card_frame_heights (tr : list Paint) : list Q := omap card_frame_height tr.

(** Sample inputs. *)
Definition sample_target : string := "192.168.1.100".
Definition sample_sid : string := "a1b2c3d4".
Definition sample_now : string := "2026-02-24 12:00 UTC".

Definition sample_pattern : AntiPattern :=
  mkPattern "positive" "SSH brute-force protection"
    "SSH brute-force attempts were blocked by fail2ban after five failed logins per host.".

(** Python's [str] on the integral scores of the samples. *)
Definition sample_str (q : Q) : string := pretty (Qnum q / Z.pos (Qden q))%Z.

(** A snippet body of 60 (empty) lines. *)
Definition sixty_lines : string := string_of_list_ascii (repeat newline 59).

(** The texts of the cells of a list of paints, in painting order. *)
Definition cell_text (pt : Paint) : option string :=
  match op pt with
  | Cell _ _ _ _ txt _ _ _ _ => Some txt
  | _ => None
  end.

Definition cell_texts (d : list Paint) : list string := omap cell_text d.

(** Canvas [s'] is [s] after painting cells with the given texts, and
    possibly rectangles and lines, all on the current page of [s] and in
    its layer. *)
Definition paints_here (texts : list string) (s s' : FPDF) : Prop :=
  page s' = page s /\ cur_layer s' = cur_layer s /\ in_footer s' = in_footer s
  /\ exists d, trace s' = trace s ++ d
               /\ Forall (fun pt => on_page pt = page s /\ layer pt = cur_layer s) d
               /\ cell_texts d = texts.

(** [score_bar] paints, right after what was there, the background of the
    bar and then an overlay of width [fw] and colour [col], both at the
    cursor. *)
Definition overlay_painted (score width height : Q) (c : FPDF) (fw : Q)
    (col : RGB) : Prop :=
  exists rest,
    trace (score_bar score width height c) = trace c ++
      [ mkPaint (page c) (cur_layer c)
          (Rect (pdf_x c) (pdf_y c) width height "F" C_LIGHT (draw_color c));
        mkPaint (page c) (cur_layer c)
          (Rect (pdf_x c) (pdf_y c) fw height "F" col (draw_color c)) ] ++ rest.





(** ** The tool server ([docker/kali/server.py])

    The tools post-process the outcome of a subprocess.  The subprocess and
    the file system are outside: an outcome is what [subprocess.run] gives
    back, Python's [str] of an integer is [pretty], and the install log and
    the shell commands issued are kept in a [World].  Writing the log is
    taken to succeed. *)

Definition MAX_OUTPUT_LENGTH : nat := 4000.
Definition EXECUTION_TIMEOUT : nat := 120.

Inductive RunOutcome :=
| Completed (returncode : Z) (stdout stderr : string)
| TimeoutExpired
| RunError (e : string).

Definition nl : string := String newline EmptyString.

(** [s[:n]] and [s[-n:]] for [n > 0]. *)
Fixpoint str_take (n : nat) (s : string) : string :=
  match n, s with
  | S n', String ch rest => String ch (str_take n' rest)
  | _, _ => EmptyString
  end.



Definition nonempty (s : string) : bool :=
  match s with EmptyString => false | _ => true end.

(** The truncation every tool applies to its output. *)
Definition truncate (output : string) : string :=
  if (MAX_OUTPUT_LENGTH <? String.length output)%nat
  then (str_take MAX_OUTPUT_LENGTH output ++ nl ++ "...(truncated)")%string
  else output.

(** The report of a completed run in [execute_script] and
    [execute_shell_cmd]. *)
Definition exit_report (returncode : Z) (stdout stderr : string) : string :=
  let output := ("Exit code: " ++ pretty returncode ++ nl)%string in
  let output := if nonempty stdout
                then (output ++ nl ++ "--- STDOUT ---" ++ nl ++ stdout)%string
                else output in
  let output := if nonempty stderr
                then (output ++ nl ++ "--- STDERR ---" ++ nl ++ stderr)%string
                else output in
  truncate output.

Definition execute_shell_cmd (run : string -> RunOutcome) (command : string)
    : string :=
  match run command with
  | Completed returncode stdout stderr => exit_report returncode stdout stderr
  | TimeoutExpired =>
      ("Error: Command timed out after " ++ pretty EXECUTION_TIMEOUT ++ "s")%string
  | RunError e => ("Error executing command: " ++ e)%string
  end.

(** [PACKAGE_NAME_RE = re.compile(r"^[a-z0-9\-]+$")] under [match]: in
    Python, [$] also matches just before a newline that ends the string. *)
Definition pkg_char (ch : ascii) : bool :=
  let n := nat_of_ascii ch in
  ((97 <=? n)%nat && (n <=? 122)%nat) || ((48 <=? n)%nat && (n <=? 57)%nat)
  || (n =? 45)%nat.

Fixpoint PACKAGE_NAME_RE_match (s : string) : bool :=
  match s with
  | EmptyString => false
  | String ch rest =>
      pkg_char ch
      && (String.eqb rest EmptyString || String.eqb rest nl
          || PACKAGE_NAME_RE_match rest)
  end.




(** Every character of a string satisfies a test. *)
Fixpoint all_chars (test : ascii -> bool) (s : string) : bool :=
  match s with
  | EmptyString => true
  | String ch rest => test ch && all_chars test rest
  end.

(** * Properties *)

Set Default Proof Using "Type".

(** ** Boolean comparisons on rationals *)

Lemma Qgtb_true (a b : Q) : Qgtb a b = true <-> b < a.
Proof.
  unfold Qgtb. rewrite negb_true_iff, <- not_true_iff_false, Qle_bool_iff.
  split; [apply Qnot_le_lt | apply Qlt_not_le].
Qed.

Lemma Qgtb_false (a b : Q) : Qgtb a b = false <-> a <= b.
Proof. unfold Qgtb. rewrite negb_false_iff. apply Qle_bool_iff. Qed.

Lemma Qltb_true (a b : Q) : Qltb a b = true <-> a < b.
Proof. unfold Qltb. apply (Qgtb_true b a). Qed.

Lemma Qltb_false (a b : Q) : Qltb a b = false <-> b <= a.
Proof. unfold Qltb. apply (Qgtb_false b a). Qed.

Lemma fill_w_linear (score width : Q) :
  score_bar_fill_w score width == score * width * (1 # 100).
Proof. unfold score_bar_fill_w. field. Qed.

(** ** Score bar arithmetic *)

Lemma fill_w_bounds (score width : Q) :
  0 <= score -> score <= 100 -> 0 <= width ->
  0 <= score_bar_fill_w score width /\ score_bar_fill_w score width <= width.
Proof.
  intros H0 H100 Hw. rewrite fill_w_linear. split; nra.
Qed.

Lemma clamp_inside (lo hi v : Q) : lo <= v -> v <= hi -> clamp lo hi v = v.
Proof.
  intros Hlo Hhi. unfold clamp.
  destruct (Qltb v lo) eqn:E1.
  - apply Qltb_true in E1. lra.
  - destruct (Qltb hi v) eqn:E2; [apply Qltb_true in E2; lra | reflexivity].
Qed.

Lemma fill_w_monotone (w s1 s2 : Q) :
  0 <= w -> s1 <= s2 -> score_bar_fill_w s1 w <= score_bar_fill_w s2 w.
Proof. intros Hw H12. rewrite !fill_w_linear. nra. Qed.

Lemma from_right_nonneg (x : Q) : 0 <= x -> from_right x = x.
Proof.
  intros H. unfold from_right. apply Qle_bool_iff in H. rewrite H. reflexivity.
Qed.

Lemma from_bottom_nonneg (y : Q) : 0 <= y -> from_bottom y = y.
Proof.
  intros H. unfold from_bottom. apply Qle_bool_iff in H. rewrite H. reflexivity.
Qed.

(** ** What the page machinery paints *)



Lemma header_paints (c : FPDF) :
  exists d, trace (header c) = trace c ++ d
            /\ (d = [] <-> page c = 1%nat)
            /\ Forall (chrome (page c) (cur_layer c)) d.
Proof.
  unfold header. destruct (page c =? 1)%nat eqn:E.
  - exists []. rewrite app_nil_r. apply Nat.eqb_eq in E. repeat split; auto.
  - apply Nat.eqb_neq in E. eexists. split; [cbn; rewrite <- app_assoc; reflexivity |].
    split; [split; [discriminate | contradiction] |].
    repeat constructor.
Qed.

Lemma header_frame (c : FPDF) :
  page (header c) = page c /\ cur_layer (header c) = cur_layer c
  /\ in_footer (header c) = in_footer c /\ pdf_x (header c) = (if (page c =? 1)%nat then pdf_x c else l_margin).
Proof.
  unfold header. destruct (page c =? 1)%nat; cbn; auto.
Qed.

Lemma header_y (c : FPDF) :
  page c <> 1%nat -> pdf_y (header c) == 5.5.
Proof.
  intros H. unfold header. apply Nat.eqb_neq in H. rewrite H. cbn. reflexivity.
Qed.

Lemma footer_paints (c : FPDF) :
  exists pt, trace (footer c) = trace c ++ [pt] /\ chrome (page c) (cur_layer c) pt.
Proof.
  eexists. split; [cbn; reflexivity | repeat split].
Qed.

Lemma footer_frame (c : FPDF) :
  page (footer c) = page c /\ cur_layer (footer c) = cur_layer c
  /\ in_footer (footer c) = in_footer c.
Proof. cbn. auto. Qed.

Lemma add_page_frame (c : FPDF) :
  page (add_page c) = S (page c) /\ cur_layer (add_page c) = cur_layer c
  /\ in_footer (add_page c) = in_footer c /\ font (add_page c) = font c
  /\ fill_color (add_page c) = fill_color c /\ text_color (add_page c) = text_color c
  /\ draw_color (add_page c) = draw_color c.
Proof.
  unfold add_page. cbn -[header footer Nat.ltb].
  destruct (0 <? page c)%nat;
    match goal with |- context [header ?s] => pose proof (header_frame s) as Hh end;
    cbn -[header footer Nat.ltb] in *; intuition.
Qed.

Lemma add_page_y (c : FPDF) :
  (1 <= page c)%nat -> pdf_y (add_page c) == 5.5.
Proof.
  intros H. unfold add_page. cbn -[header footer Nat.ltb].
  apply header_y. destruct (0 <? page c)%nat; cbn; lia.
Qed.

Lemma add_page_x (c : FPDF) : pdf_x (add_page c) = l_margin.
Proof.
  unfold add_page. cbn -[header footer Nat.ltb].
  match goal with |- context [header ?s] => pose proof (header_frame s) as Hh end.
  destruct Hh as (_ & _ & _ & Hx). rewrite Hx. destruct (_ =? 1)%nat; reflexivity.
Qed.

(** A page start paints the footer of the page it leaves (if there is one)
    and the running header of the page it opens (unless that is page 1). *)
Lemma add_page_paints (c : FPDF) :
  exists df dh, trace (add_page c) = trace c ++ df ++ dh
                /\ Forall (chrome (page c) InFooter) df
                /\ (df = [] <-> page c = 0%nat)
                /\ Forall (chrome (S (page c)) InHeader) dh
                /\ (dh = [] <-> page c = 0%nat).
Proof.
  unfold add_page. cbn -[header footer Nat.ltb].
  destruct (0 <? page c)%nat eqn:E.
  - apply Nat.ltb_lt in E.
    destruct (footer_paints (set_layer InFooter true c)) as (pt & Hf & Hpt).
    match goal with |- context [header ?s] =>
      destruct (header_paints s) as (dh & Hh & Hnil & Hall) end.
    cbn -[header footer Nat.ltb] in *.
    exists [pt], dh. rewrite Hh, Hf, <- app_assoc.
    destruct (footer_frame (set_layer InFooter true c)) as (Hp & _).
    cbn -[footer Nat.ltb] in Hp. rewrite Hp in *.
    repeat split; auto; try discriminate; try lia.
    + intros ->. destruct Hnil as [Hn _]. specialize (Hn eq_refl). lia.
  - apply Nat.ltb_ge in E. assert (E0 : page c = 0%nat) by lia.
    match goal with |- context [header ?s] =>
      destruct (header_paints s) as (dh & Hh & Hnil & Hall) end.
    cbn -[header Nat.ltb] in *. rewrite E0 in *.
    exists [], dh. rewrite Hh. repeat split; auto.
    intros _. apply Hnil. reflexivity.
Qed.

Lemma perform_page_break_frame (h : Q) (c : FPDF) :
  let c' := perform_page_break_if_need_be h c in
  pdf_x c' = pdf_x c /\ cur_layer c' = cur_layer c /\ in_footer c' = in_footer c
  /\ font c' = font c /\ fill_color c' = fill_color c
  /\ text_color c' = text_color c /\ draw_color c' = draw_color c
  /\ (page c' = page c \/ page c' = S (page c)).
Proof.
  unfold perform_page_break_if_need_be.
  destruct (will_page_break h c); cbn -[add_page].
  - destruct (add_page_frame c) as (Hp & Hl & Hf & Hfont & Hfc & Htc & Hdc).
    repeat split; try assumption. right. exact Hp.
  - repeat split. left. reflexivity.
Qed.

Lemma perform_page_break_paints (h : Q) (c : FPDF) :
  let c' := perform_page_break_if_need_be h c in
  exists df dh, trace c' = trace c ++ df ++ dh
                /\ Forall (chrome (page c) InFooter) df
                /\ Forall (chrome (page c') InHeader) dh
                /\ (page c' = page c -> df = [] /\ dh = [])
                /\ (page c' = S (page c) -> (1 <= page c)%nat -> df <> [] /\ dh <> []).
Proof.
  unfold perform_page_break_if_need_be.
  destruct (will_page_break h c); cbn -[add_page].
  - destruct (add_page_paints c) as (df & dh & Ht & Hf & Hfn & Hh & Hhn).
    destruct (add_page_frame c) as (Hp & _). rewrite Hp.
    exists df, dh. repeat split; auto; try lia.
    + intros E. apply Hfn in E. lia.
    + intros E. apply Hhn in E. lia.
  - exists [], []. rewrite app_nil_r. repeat split; auto; lia.
Qed.

Lemma cell_render_frame w h txt al fl nx ny (c : FPDF) :
  let c' := cell_render w h txt al fl nx ny c in
  page c' = page c /\ cur_layer c' = cur_layer c /\ in_footer c' = in_footer c
  /\ font c' = font c /\ fill_color c' = fill_color c
  /\ text_color c' = text_color c /\ draw_color c' = draw_color c
  /\ exists x' y' w' fl', trace c' = trace c ++
       [mkPaint (page c) (cur_layer c)
                (Cell x' y' w' h txt al fl' (text_color c) (font c))]
       /\ x' = pdf_x c /\ y' = pdf_y c.
Proof.
  cbn. repeat split. do 4 eexists. repeat split.
Qed.

(** ** The page invariant *)

Lemma painted_on_app_l l p tr d : painted_on l p tr -> painted_on l p (tr ++ d).
Proof. unfold painted_on. rewrite Exists_app. auto. Qed.

Lemma painted_on_app_r l p tr d : painted_on l p d -> painted_on l p (tr ++ d).
Proof. unfold painted_on. rewrite Exists_app. auto. Qed.

Lemma chrome_painted p l d : d <> [] -> Forall (chrome p l) d -> painted_on l p d.
Proof.
  intros Hne Hall. destruct d as [| pt d]; [contradiction |].
  inversion Hall as [| ? ? (Hp & Hl & _) _]; subst.
  apply Exists_cons_hd. auto.
Qed.

Lemma page_inv_init : page_inv pdf_init.
Proof.
  unfold page_inv. cbn. repeat split; auto; intros; lia.
Qed.

(** Painting in the body, moving the cursor and changing fonts or colours
    keep the invariant. *)
Lemma page_inv_body (c c' : FPDF) (d : list Paint) :
  page_inv c -> page c' = page c -> cur_layer c' = InBody -> in_footer c' = false ->
  trace c' = trace c ++ d -> Forall (fun pt => layer pt = InBody) d ->
  page_inv c'.
Proof.
  intros (Hl & Hf & Hok & Hh & Hft) Hp Hl' Hf' Ht Hd.
  unfold page_inv. rewrite Hp, Ht. repeat split; auto.
  - apply Forall_app. split; [assumption |].
    eapply Forall_impl; [exact Hd |]. intros pt E. unfold layer_ok. rewrite E. exact I.
  - intros p Hp2. apply painted_on_app_l, Hh, Hp2.
  - intros p Hp2. apply painted_on_app_l, Hft, Hp2.
Qed.

Lemma layer_ok_mono n m pt : (n <= m)%nat -> layer_ok n pt -> layer_ok m pt.
Proof. unfold layer_ok. destruct (layer pt); lia. Qed.

Lemma page_inv_add_page (c : FPDF) : page_inv c -> page_inv (add_page c).
Proof.
  intros (Hl & Hf & Hok & Hh & Hft).
  destruct (add_page_frame c) as (Hp & Hl' & Hf' & _).
  destruct (add_page_paints c) as (df & dh & Ht & Hdf & Hdfn & Hdh & Hdhn).
  unfold page_inv. rewrite Hp, Hl', Hf', Ht. repeat split; auto.
  - rewrite !Forall_app. repeat split.
    + eapply Forall_impl; [exact Hok |]. intros pt. apply layer_ok_mono. lia.
    + destruct df as [| pt df]; [constructor |].
      assert (page c <> 0%nat) by (intros E; apply Hdfn in E; discriminate).
      eapply Forall_impl; [exact Hdf |]. intros q (Hq & Hlq & _).
      unfold layer_ok. rewrite Hlq, Hq. lia.
    + destruct dh as [| pt dh]; [constructor |].
      assert (page c <> 0%nat) by (intros E; apply Hdhn in E; discriminate).
      eapply Forall_impl; [exact Hdh |]. intros q (Hq & Hlq & _).
      unfold layer_ok. rewrite Hlq, Hq. lia.
  - intros p Hp2. destruct (decide (p = S (page c))) as [-> | Hne].
    + rewrite app_assoc. apply painted_on_app_r, chrome_painted; [| assumption].
      intros E. apply Hdhn in E. lia.
    + apply painted_on_app_l, Hh. lia.
  - intros p Hp2. destruct (decide (p = page c)) as [-> | Hne].
    + apply painted_on_app_r, painted_on_app_l, chrome_painted; [| assumption].
      intros E. apply Hdfn in E. lia.
    + apply painted_on_app_l, Hft. lia.
Qed.

Lemma page_inv_move (c : FPDF) (x y : Q) : page_inv c -> page_inv (with_xy x y c).
Proof.
  intros H. apply (page_inv_body c _ []); auto; try apply H.
  cbn. rewrite app_nil_r. reflexivity.
Qed.

Lemma page_inv_page_break (h : Q) (c : FPDF) :
  page_inv c -> page_inv (perform_page_break_if_need_be h c).
Proof.
  intros H. unfold perform_page_break_if_need_be.
  destruct (will_page_break h c); [| assumption].
  apply page_inv_move, page_inv_add_page, H.
Qed.

Lemma page_inv_emit (o : DrawOp) (c : FPDF) : page_inv c -> page_inv (emit o c).
Proof.
  intros H. apply (page_inv_body c _ [mkPaint (page c) (cur_layer c) o]); auto;
    try apply H.
  constructor; [apply H | constructor].
Qed.

Lemma page_inv_cell w h txt al fl nx ny (c : FPDF) :
  page_inv c -> page_inv (cell w h txt al fl nx ny c).
Proof.
  intros H. unfold cell, cell_render.
  apply page_inv_move, page_inv_emit, page_inv_page_break, H.
Qed.

Lemma page_inv_fold {A : Type} (f : FPDF -> A -> FPDF) (l : list A) :
  (forall c a, page_inv c -> page_inv (f c a)) ->
  forall c, page_inv c -> page_inv (fold_left f l c).
Proof.
  intros Hf. induction l as [| a l IH]; intros c H; cbn; [assumption |].
  apply IH, Hf, H.
Qed.

Lemma page_inv_multi_cell w h txt (c : FPDF) :
  page_inv c -> page_inv (multi_cell w h txt c).
Proof.
  intros H. unfold multi_cell. apply page_inv_move.
  apply page_inv_fold; [| assumption].
  intros s a Hs. apply page_inv_cell, Hs.
Qed.

Lemma page_inv_set (c c' : FPDF) :
  page_inv c -> page c' = page c -> cur_layer c' = cur_layer c ->
  in_footer c' = in_footer c -> trace c' = trace c -> page_inv c'.
Proof.
  intros H Hp Hl Hf Ht. apply (page_inv_body c c' []); auto.
  - rewrite Hl. apply H.
  - rewrite Hf. apply H.
  - rewrite app_nil_r. assumption.
Qed.

Lemma page_inv_exec_stmt (s : Stmt) (c c' : FPDF) :
  page_inv c -> exec_stmt s c = Some c' -> page_inv c'.
Proof.
  intros H E. destruct s; cbn in E; unfold on_open_page in E;
    try (destruct (page c =? 0)%nat; [discriminate |]);
    injection E as <-.
  - apply page_inv_add_page, H.
  - apply page_inv_emit, H.
  - apply page_inv_emit, H.
  - apply page_inv_cell, H.
  - apply page_inv_multi_cell, H.
  - apply page_inv_move, H.
  - apply page_inv_move, H.
  - apply (page_inv_set c); auto.
  - apply (page_inv_set c); auto.
  - apply (page_inv_set c); auto.
Qed.

Lemma page_inv_exec (prog : list Stmt) :
  forall c c', page_inv c -> exec prog c = Some c' -> page_inv c'.
Proof.
  induction prog as [| s prog IH]; intros c c' H E; cbn in E.
  - injection E as <-. assumption.
  - destruct (exec_stmt s c) as [c1 |] eqn:E1; cbn in E; [| discriminate].
    eapply IH; [| exact E]. eapply page_inv_exec_stmt; eauto.
Qed.

Lemma output_paints (c : FPDF) :
  page_inv c ->
  exists c0 pt, page_inv c0 /\ (1 <= page c0)%nat
                /\ page (output c) = page c0
                /\ trace (output c) = trace c0 ++ [pt]
                /\ chrome (page c0) InFooter pt.
Proof.
  intros H. unfold output.
  set (c0 := if (page c =? 0)%nat then add_page c else c).
  assert (H0 : page_inv c0 /\ (1 <= page c0)%nat).
  { subst c0. destruct (page c =? 0)%nat eqn:E.
    - split; [apply page_inv_add_page, H |].
      destruct (add_page_frame c) as (Hp & _). lia.
    - apply Nat.eqb_neq in E. split; [assumption | lia]. }
  destruct H0 as (Hinv & Hpos).
  destruct (footer_paints (set_layer InFooter true c0)) as (pt & Hf & Hpt).
  destruct (footer_frame (set_layer InFooter true c0)) as (Hp & _).
  exists c0, pt. cbn -[footer] in *. rewrite Hp. auto.
Qed.

(** C8. In the document any client program produces, the running header is
    painted on a page exactly when the page is not page 1, and the footer is
    painted on every page, page 1 included. *)
Theorem header_footer_on_pages (prog : list Stmt) (c : FPDF) (p : nat) :
  exec prog pdf_init = Some c ->
  (1 <= p <= page (output c))%nat ->
  (painted_on InHeader p (trace (output c)) <-> p <> 1%nat)
  /\ painted_on InFooter p (trace (output c)).
Proof.
  intros E Hp.
  assert (Hinv : page_inv c) by (eapply page_inv_exec; [apply page_inv_init | exact E]).
  destruct (output_paints c Hinv)
    as (c0 & pt & (_ & _ & Hok & Hh & Hft) & Hpos & Hpg & Ht & (Hpp & Hpl & _)).
  rewrite Hpg in Hp. rewrite Ht. split; [split |].
  - unfold painted_on. rewrite Exists_app. intros [Hex | Hex].
    + apply Exists_exists in Hex as (q & Hin & Hq & Hl).
      rewrite Forall_forall in Hok. apply Hok in Hin.
      unfold layer_ok in Hin. rewrite Hl in Hin. lia.
    + inversion Hex as [? ? (_ & Hl) | ? ? Hnil]; subst.
      * rewrite Hpl in Hl. discriminate.
      * inversion Hnil.
  - intros Hne. apply painted_on_app_l, Hh. lia.
  - destruct (decide (p = page c0)) as [-> | Hne].
    + apply painted_on_app_r. apply Exists_cons_hd. auto.
    + apply painted_on_app_l, Hft. lia.
Qed.


(** ** What a cell paints *)

Lemma cell_paints w h txt al fl nx ny (c : FPDF) :
  exists d pg y',
    trace (cell w h txt al fl nx ny c) = trace c ++ d ++
      [mkPaint pg (cur_layer c)
         (Cell (pdf_x c) y' (if Qeq_bool w 0 then pdf_w - r_margin - pdf_x c else w)
               h txt al (if fl then Some (fill_color c) else None)
               (text_color c) (font c))]
    /\ Forall (fun pt => layer pt <> InBody /\ card_title pt = None) d
    /\ pg = page (cell w h txt al fl nx ny c)
    /\ (pg = page c \/ pg = S (page c)).
Proof.
  unfold cell.
  destruct (perform_page_break_frame h c)
    as (Hx & Hl & _ & Hfont & Hfc & Htc & _ & Hpg).
  destruct (perform_page_break_paints h c) as (df & dh & Ht & Hdf & Hdh & _).
  set (c' := perform_page_break_if_need_be h c) in *.
  exists (df ++ dh), (page c'), (pdf_y c').
  cbn. rewrite Ht, Hx, Hl, Hfont, Hfc, Htc, <- !app_assoc.
  repeat split; auto.
  apply Forall_app. split; (eapply Forall_impl; [eassumption |]);
    intros pt (_ & E & Hn); rewrite E; split; auto; discriminate.
Qed.

Lemma cell_frame w h txt al fl nx ny (c : FPDF) :
  let c' := cell w h txt al fl nx ny c in
  cur_layer c' = cur_layer c /\ in_footer c' = in_footer c /\ font c' = font c
  /\ fill_color c' = fill_color c /\ text_color c' = text_color c
  /\ draw_color c' = draw_color c.
Proof.
  unfold cell.
  destruct (perform_page_break_frame h c) as (_ & Hl & Hf & Hfont & Hfc & Htc & Hdc & _).
  cbn -[perform_page_break_if_need_be]. repeat split; assumption.
Qed.

(** ** Score bar *)

Lemma score_bar_rects score width height (c : FPDF) :
  overlay_painted score width height c (score_bar_fill_w score width)
                  (score_bar_color score).
Proof.
  unfold overlay_painted, score_bar.
  cbn -[cell set_xy score_bar_fill_w score_bar_color].
  match goal with |- context [cell ?w ?h ?t ?a ?f ?nx ?ny ?s] =>
    destruct (cell_paints w h t a f nx ny s) as (d & pg & y' & Ht & _) end.
  rewrite Ht. cbn -[score_bar_fill_w score_bar_color from_right from_bottom].
  eexists. rewrite <- !app_assoc. cbn [app]. reflexivity.
Qed.

(** The label cell is the last paint of [score_bar]; its abscissa is what
    [set_xy] makes of [x + fill_w - 14]. *)
Lemma score_bar_label score width height (c : FPDF) :
  exists pre pg ly y' fg f,
    trace (score_bar score width height c) = pre ++
      [ mkPaint pg ly
          (Cell (from_right (pdf_x c + score_bar_fill_w score width - 14)) y'
                14 height (str score ++ "/100") "R" None fg f) ].
Proof.
  unfold score_bar. cbn -[cell set_xy score_bar_fill_w score_bar_color].
  match goal with |- context [cell ?w ?h ?t ?a ?f ?nx ?ny ?s] =>
    destruct (cell_paints w h t a f nx ny s) as (d & pg & y' & Ht & _) end.
  rewrite Ht. cbn -[score_bar_fill_w score_bar_color from_right from_bottom].
  do 6 eexists. rewrite !app_assoc. reflexivity.
Qed.

(** C4 (amended). On an open page the overlay rectangle [score_bar] paints
    has width [(score / 100) * w] for every score: no clamp is applied, so
    a score above 100 overshoots the bar and a negative score gives a
    negative width.  For a score in [0, 100] and [w >= 0] that width
    coincides with the value clamped to [0, w]; a score of 35 gives a fill
    of width [0.35 * w] in the low colour. *)
Theorem score_bar_overlay_width (score width height : Q) (c : FPDF) :
  (1 <= page c)%nat ->
  overlay_painted score width height c ((score / 100) * width)
                  (score_bar_color score)
  /\ (0 <= score -> score <= 100 -> 0 <= width ->
      (score / 100) * width == clamp 0 width ((score / 100) * width))
  /\ (100 < score -> 0 < width -> width < (score / 100) * width)
  /\ (score < 0 -> 0 < width -> (score / 100) * width < 0)
  /\ (score == 35 ->
      (score / 100) * width == 0.35 * width /\ score_bar_color score = C_RED).
Proof.
  intros _. split; [apply score_bar_rects |].
  fold (score_bar_fill_w score width). split; [| split; [| split]].
  - intros H0 H100 Hw.
    destruct (fill_w_bounds score width H0 H100 Hw) as (Hlo & Hhi).
    rewrite clamp_inside by assumption. reflexivity.
  - intros H Hw. rewrite fill_w_linear. nra.
  - intros H Hw. rewrite fill_w_linear. nra.
  - intros E. split.
    + rewrite fill_w_linear, E. field.
    + unfold score_bar_color.
      assert (Hlt : Qltb score 50 = true) by (apply Qltb_true; rewrite E; reflexivity).
      rewrite Hlt. reflexivity.
Qed.

(** C5. Score bar monotonicity: on an open page, for scores
    [0 <= s1 < s2 <= 100] and a bar of width [w >= 0], the overlay
    [score_bar] paints for [s1] is at most as wide as the one it paints for
    [s2]; the overlay for score 0 has width 0 and the one for score 100 the
    full bar width. *)
Theorem score_bar_fill_monotone (w h s1 s2 : Q) (c : FPDF) :
  (1 <= page c)%nat ->
  0 <= w -> 0 <= s1 -> s1 < s2 -> s2 <= 100 ->
  exists f1 f2 f0 f100,
    overlay_painted s1 w h c f1 (score_bar_color s1)
    /\ overlay_painted s2 w h c f2 (score_bar_color s2)
    /\ f1 <= f2
    /\ overlay_painted 0 w h c f0 C_RED /\ f0 == 0
    /\ overlay_painted 100 w h c f100 C_GREEN /\ f100 == w.
Proof.
  intros _ Hw H1 H12 H2.
  exists (score_bar_fill_w s1 w), (score_bar_fill_w s2 w),
         (score_bar_fill_w 0 w), (score_bar_fill_w 100 w).
  split; [apply score_bar_rects |]. split; [apply score_bar_rects |].
  split; [apply fill_w_monotone; [assumption | lra] |].
  split; [apply (score_bar_rects 0 w h c) |].
  split; [rewrite fill_w_linear; ring |].
  split; [apply (score_bar_rects 100 w h c) |].
  rewrite fill_w_linear. field.
Qed.

(** C10 (amended). On an open page, when [x + fill_w - 14] is not negative,
    the score label is a right-aligned cell of width 14 put at
    [x + fill_w - 14], so its right edge is the right edge of the fill; when
    the fill is narrower than 14 (any score in [0, 14) at the call-site
    width 100 and at the signature's default width 60) the cell starts left
    of the bar's origin [x]. *)
Theorem score_bar_label_left_of_bar (score width height : Q) (c : FPDF) :
  let x := pdf_x c in
  let label_x := score_bar_label_x x score width in
  (1 <= page c)%nat ->
  0 <= x + (score / 100) * width - 14 ->
  (exists pre pg ly y' fg f,
     trace (score_bar score width height c) = pre ++
       [ mkPaint pg ly
           (Cell (x + (score / 100) * width - 14) y' 14 height
                 (str score ++ "/100") "R" None fg f) ])
  /\ label_x == x + (score / 100) * width - 14
  /\ label_x + 14 == x + score_bar_fill_w score width
  /\ ((score / 100) * width < 14 -> label_x < x)
  /\ (score < 14 -> 0 <= score -> width == 100 \/ width == 60 -> label_x < x).
Proof.
  cbn zeta. intros _ Hpos. split.
  - destruct (score_bar_label score width height c)
      as (pre & pg & ly & y' & fg & f & Ht).
    fold (score_bar_fill_w score width) in Hpos.
    rewrite (from_right_nonneg _ Hpos) in Ht. eauto 10.
  - unfold score_bar_label_x. split; [reflexivity |].
    split; [ring |]. split.
    + intros H. fold (score_bar_fill_w score width) in H. lra.
    + intros H14 H0 Hw. rewrite fill_w_linear.
      destruct Hw as [E | E]; rewrite E; lra.
Qed.

(** ** Severity and status styles *)





(** ** Cover counts *)

Lemma findings_severity_counts :
  count_severity "Critical" findings = 2%nat
  /\ count_severity "High" findings = 1%nat
  /\ count_severity "Medium" findings = 1%nat
  /\ count_severity "Low" findings = 0%nat.
Proof. repeat split; vm_compute; reflexivity. Qed.


(** ** Card titles in the trace *)

Lemma card_titles_app (tr d : list Paint) :
  card_titles (tr ++ d) = card_titles tr ++ card_titles d.
Proof. apply omap_app. Qed.

Lemma card_titles_chrome (d : list Paint) :
  Forall (fun pt => card_title pt = None) d -> card_titles d = [].
Proof.
  induction 1 as [| pt d Hpt _ IH]; [reflexivity |].
  unfold card_titles in *. cbn. rewrite Hpt. exact IH.
Qed.

Lemma titles_add_page (c : FPDF) :
  card_titles (trace (add_page c)) = card_titles (trace c).
Proof.
  destruct (add_page_paints c) as (df & dh & Ht & Hdf & _ & Hdh & _).
  rewrite Ht, !card_titles_app.
  rewrite (card_titles_chrome df), (card_titles_chrome dh), app_nil_r; auto;
    (eapply Forall_impl; [eassumption |]); intros pt (_ & _ & E); exact E.
Qed.

Lemma titles_cell w h txt al fl nx ny (c : FPDF) :
  card_titles (trace (cell w h txt al fl nx ny c))
  = card_titles (trace c) ++ (if is_card_title_font (font c) then [txt] else []).
Proof.
  destruct (cell_paints w h txt al fl nx ny c) as (d & pg & y' & Ht & Hd & _).
  rewrite Ht, !card_titles_app, (card_titles_chrome d).
  - cbn. unfold card_titles, card_title. cbn.
    destruct (is_card_title_font (font c)); reflexivity.
  - eapply Forall_impl; [exact Hd |]. intros pt (_ & E). exact E.
Qed.

Lemma titles_cells_quiet w h nx ny (lines : list string) :
  forall c, is_card_title_font (font c) = false ->
  let c' := fold_left (fun acc t => cell w h t "J" false nx ny acc) lines c in
  card_titles (trace c') = card_titles (trace c) /\ font c' = font c.
Proof.
  induction lines as [| t lines IH]; intros c Hf; cbn -[cell]; [auto |].
  destruct (cell_frame w h t "J" false nx ny c) as (_ & _ & Hfont & _).
  destruct (IH (cell w h t "J" false nx ny c)) as (Ht & Hf').
  { rewrite Hfont. exact Hf. }
  cbn zeta in Ht, Hf'. rewrite Ht, Hf', titles_cell, Hf, app_nil_r. auto.
Qed.

Lemma titles_multi_cell w h txt (c : FPDF) :
  is_card_title_font (font c) = false ->
  card_titles (trace (multi_cell w h txt c)) = card_titles (trace c).
Proof.
  intros Hf. unfold multi_cell. cbn -[cell].
  apply (titles_cells_quiet _ h LEFT NEXT _ c Hf).
Qed.

Lemma titles_h1 txt (c : FPDF) :
  card_titles (trace (h1 txt c)) = card_titles (trace c).
Proof.
  unfold h1. cbn -[cell]. rewrite titles_cell. cbn. apply app_nil_r.
Qed.

Lemma titles_h2 txt (c : FPDF) :
  card_titles (trace (h2 txt c)) = card_titles (trace c).
Proof.
  unfold h2. cbn -[cell]. rewrite card_titles_app, titles_cell. cbn.
  rewrite !app_nil_r. reflexivity.
Qed.

Lemma titles_body txt indent (c : FPDF) :
  card_titles (trace (body txt indent c)) = card_titles (trace c).
Proof.
  unfold body. cbn -[multi_cell]. rewrite titles_multi_cell; reflexivity.
Qed.

Lemma titles_card_place card_h (c : FPDF) :
  card_titles (trace (card_place card_h c)) = card_titles (trace c).
Proof.
  unfold card_place. destruct (Qgtb _ _); [apply titles_add_page | reflexivity].
Qed.

Lemma trace_ln h (c : FPDF) : trace (ln h c) = trace c.
Proof. reflexivity. Qed.
Lemma trace_set_xy x y (s : FPDF) : trace (set_xy x y s) = trace s.
Proof. reflexivity. Qed.
Lemma trace_set_x x (s : FPDF) : trace (set_x x s) = trace s.
Proof. reflexivity. Qed.
Lemma trace_set_font fam sty sz (s : FPDF) : trace (set_font fam sty sz s) = trace s.
Proof. reflexivity. Qed.
Lemma trace_set_text_color col (s : FPDF) : trace (set_text_color col s) = trace s.
Proof. reflexivity. Qed.
Lemma trace_set_fill_color col (s : FPDF) : trace (set_fill_color col s) = trace s.
Proof. reflexivity. Qed.
Lemma trace_set_draw_color col (s : FPDF) : trace (set_draw_color col s) = trace s.
Proof. reflexivity. Qed.
Lemma trace_set_line_width lw (s : FPDF) : trace (set_line_width lw s) = trace s.
Proof. reflexivity. Qed.
Lemma trace_rect x y w h st (s : FPDF) :
  trace (rect x y w h st s)
  = trace s ++ [mkPaint (page s) (cur_layer s)
                        (Rect x y w h st (fill_color s) (draw_color s))].
Proof. reflexivity. Qed.
Lemma font_set_text_color col (s : FPDF) : font (set_text_color col s) = font s.
Proof. reflexivity. Qed.
Lemma font_set_font fam sty sz (s : FPDF) :
  font (set_font fam sty sz s) = mkFont fam sty sz.
Proof. reflexivity. Qed.

Ltac strip_setters :=
  repeat first [ rewrite trace_set_xy | rewrite trace_set_x
               | rewrite trace_set_font | rewrite trace_set_text_color
               | rewrite trace_set_fill_color | rewrite trace_set_draw_color
               | rewrite trace_set_line_width | rewrite trace_ln ].

(** A card adds exactly its own title line. *)
Lemma titles_pattern_card bg fg mark p (c : FPDF) :
  card_titles (trace (pattern_card bg fg mark p c))
  = card_titles (trace c) ++ [(mark ++ "  " ++ p_title p)%string].
Proof.
  unfold pattern_card.
  match goal with
  | |- context [run [?a1; ?a2; ?a3; ?a4; ?a5; ?a6; ?a7; ?a8; ?a9; ?a10; ?a11;
                     ?a12; ?a13; ?a14] ?s] =>
      change (run [a1; a2; a3; a4; a5; a6; a7; a8; a9; a10; a11; a12; a13; a14] s)
        with (a14 (a13 (a12 (a11 (a10 (a9 (a8 (a7 (a6 (a5 (a4 (a3 (a2 (a1 s))))))))))))))
  end.
  cbv beta. strip_setters.
  rewrite titles_multi_cell
    by (rewrite font_set_text_color, font_set_font; reflexivity).
  strip_setters. rewrite titles_cell, font_set_text_color, font_set_font.
  strip_setters. rewrite trace_rect, card_titles_app. strip_setters.
  rewrite titles_card_place. strip_setters.
  change (card_titles [_]) with (@nil string). rewrite app_nil_r.
  reflexivity.
Qed.

Lemma titles_card_loop bg fg mark (ps : list AntiPattern) :
  forall c,
  card_titles (trace (fold_left (fun acc p => pattern_card bg fg mark p acc) ps c))
  = card_titles (trace c) ++ map (fun p => (mark ++ "  " ++ p_title p)%string) ps.
Proof.
  induction ps as [| p ps IH]; intros c; cbn -[pattern_card].
  - rewrite app_nil_r. reflexivity.
  - rewrite IH, titles_pattern_card, <- app_assoc. reflexivity.
Qed.



Lemma titles_group heading bg fg mark (ps : list AntiPattern) (s : FPDF) :
  card_titles
    (trace (run [ h2 heading;
                  (fun s' => fold_left
                     (fun acc p => pattern_card bg fg mark p acc) ps s') ] s))
  = card_titles (trace s) ++ map (fun p => (mark ++ "  " ++ p_title p)%string) ps.
Proof.
  change (run [ h2 heading;
                (fun s' => fold_left
                   (fun acc p => pattern_card bg fg mark p acc) ps s') ] s)
    with (fold_left (fun acc p => pattern_card bg fg mark p acc) ps (h2 heading s)).
  rewrite titles_card_loop, titles_h2. reflexivity.
Qed.

Lemma titles_group_ln gap heading bg fg mark (ps : list AntiPattern) (s : FPDF) :
  card_titles
    (trace (run [ ln gap; h2 heading;
                  (fun s' => fold_left
                     (fun acc p => pattern_card bg fg mark p acc) ps s') ] s))
  = card_titles (trace s) ++ map (fun p => (mark ++ "  " ++ p_title p)%string) ps.
Proof.
  change (run [ ln gap; h2 heading;
                (fun s' => fold_left
                   (fun acc p => pattern_card bg fg mark p acc) ps s') ] s)
    with (run [ h2 heading;
                (fun s' => fold_left
                   (fun acc p => pattern_card bg fg mark p acc) ps s') ] (ln gap s)).
  rewrite titles_group, trace_ln. reflexivity.
Qed.

Lemma titles_pattern_cards (PATTERNS : list AntiPattern) (c : FPDF) :
  card_titles (trace (pattern_cards PATTERNS c))
  = card_titles (trace c)
    ++ map (fun p => ("✓" ++ "  " ++ p_title p)%string) (positives PATTERNS)
    ++ map (fun p => ("✗" ++ "  " ++ p_title p)%string) (negatives PATTERNS).
Proof.
  unfold pattern_cards.
  destruct (positives PATTERNS) as [| p ps]; destruct (negatives PATTERNS) as [| q qs].
  - rewrite !app_nil_r. reflexivity.
  - rewrite titles_group_ln. reflexivity.
  - rewrite titles_group, app_nil_r. reflexivity.
  - rewrite titles_group_ln, titles_group, <- app_assoc. reflexivity.
Qed.

Lemma titles_section7_start (c : FPDF) :
  card_titles (trace (section7_start c)) = card_titles (trace c).
Proof.
  change (section7_start c) with (h1 "7.  Learned Anti-Patterns" (add_page c)).
  rewrite titles_h1, titles_add_page. reflexivity.
Qed.

(** C9. The anti-patterns section paints the card of every positive pattern
    before the card of any negative one, whatever the interleaving of the
    input, and inside each group the cards follow the input order: the card
    titles the section adds to the trace are those of the positive patterns,
    then those of the negative ones, each group being the input list
    filtered. *)
Theorem anti_patterns_positives_first (PATTERNS : list AntiPattern) (c : FPDF) :
  card_titles (trace (section7_anti_patterns PATTERNS c))
  = card_titles (trace c)
    ++ map (fun p => ("✓" ++ "  " ++ p_title p)%string)
           (filter (fun p => p_type p = "positive") PATTERNS)
    ++ map (fun p => ("✗" ++ "  " ++ p_title p)%string)
           (filter (fun p => p_type p = "negative") PATTERNS)
  /\ sublist (positives PATTERNS) PATTERNS
  /\ sublist (negatives PATTERNS) PATTERNS.
Proof.
  split; [| split; apply sublist_filter].
  unfold section7_anti_patterns.
  match goal with |- context [run [section7_start; body ?t ?i; ln ?g; pattern_cards PATTERNS] c] =>
    change (run [section7_start; body t i; ln g; pattern_cards PATTERNS] c)
      with (pattern_cards PATTERNS (ln g (body t i (section7_start c)))) end.
  rewrite titles_pattern_cards, trace_ln, titles_body, titles_section7_start.
  reflexivity.
Qed.


(** ** Atomic elements and the page bottom *)

Lemma extends_refl (c : FPDF) : extends c c.
Proof. exists []. symmetry. apply app_nil_r. Qed.

Lemma extends_trans (a b c : FPDF) : extends a b -> extends b c -> extends a c.
Proof.
  intros (d1 & H1) (d2 & H2). exists (d1 ++ d2). rewrite H2, H1, app_assoc. reflexivity.
Qed.

Lemma extends_same (c c' : FPDF) : trace c' = trace c -> extends c c'.
Proof. intros H. exists []. rewrite H, app_nil_r. reflexivity. Qed.

Lemma extends_cell w h txt al fl nx ny (c : FPDF) :
  extends c (cell w h txt al fl nx ny c).
Proof.
  destruct (cell_paints w h txt al fl nx ny c) as (d & pg & y' & Ht & _).
  eexists. rewrite Ht. reflexivity.
Qed.

Lemma extends_fold {A : Type} (f : FPDF -> A -> FPDF) (l : list A) :
  (forall s a, extends s (f s a)) -> forall c, extends c (fold_left f l c).
Proof.
  intros Hf. induction l as [| a l IH]; intros c; cbn; [apply extends_refl |].
  eapply extends_trans; [apply Hf | apply IH].
Qed.

Lemma extends_multi_cell w h txt (c : FPDF) : extends c (multi_cell w h txt c).
Proof.
  unfold multi_cell. eapply extends_trans; [| apply extends_same; reflexivity].
  apply extends_fold. intros s a. apply extends_cell.
Qed.

Lemma extends_run (stmts : list (FPDF -> FPDF)) :
  Forall (fun f => forall s, extends s (f s)) stmts ->
  forall c, extends c (run stmts c).
Proof.
  induction 1 as [| f l Hf _ IH]; intros c; [apply extends_refl |].
  change (run (f :: l) c) with (run l (f c)).
  eapply extends_trans; [apply Hf | apply IH].
Qed.

Ltac ext_solve :=
  intros;
  first [ apply extends_cell
        | apply extends_multi_cell
        | apply extends_same; reflexivity
        | eexists; cbn; reflexivity ].

(** The break decision of [code_block]: a new page exactly when the block is
    taller than what remains, and then the block starts at y = 5.5. *)
Lemma code_block_place_spec (code : string) (c : FPDF) :
  (1 <= page c)%nat ->
  let s := code_block_place code c in
  let remaining := pdf_h - b_margin - pdf_y c in
  (remaining < code_block_height code -> page s = S (page c) /\ pdf_y s == 5.5)
  /\ (code_block_height code <= remaining -> s = c).
Proof.
  intros Hp. cbn zeta. unfold code_block_place, get_y.
  destruct (Qgtb _ _) eqn:E.
  - apply Qgtb_true in E. split.
    + intros _. split; [apply add_page_frame | apply add_page_y, Hp].
    + intros H. lra.
  - apply Qgtb_false in E. split; [intros H; lra | reflexivity].
Qed.

Lemma card_place_spec (card_h : Q) (c : FPDF) :
  (1 <= page c)%nat ->
  let s := card_place card_h c in
  let remaining := pdf_h - b_margin - pdf_y c in
  (remaining < card_h -> page s = S (page c) /\ pdf_y s == 5.5)
  /\ (card_h <= remaining -> s = c).
Proof.
  intros Hp. cbn zeta. unfold card_place, get_y.
  destruct (Qgtb _ _) eqn:E.
  - apply Qgtb_true in E. split.
    + intros _. split; [apply add_page_frame | apply add_page_y, Hp].
    + intros H. lra.
  - apply Qgtb_false in E. split; [intros H; lra | reflexivity].
Qed.

Lemma place_frame_code (code : string) (c : FPDF) :
  cur_layer (code_block_place code c) = cur_layer c
  /\ draw_color (code_block_place code c) = draw_color c.
Proof.
  unfold code_block_place. destruct (Qgtb _ _); [| auto].
  destruct (add_page_frame c) as (_ & Hl & _ & _ & _ & _ & Hdc). auto.
Qed.

Lemma place_frame_card (card_h : Q) (c : FPDF) :
  cur_layer (card_place card_h c) = cur_layer c.
Proof.
  unfold card_place. destruct (Qgtb _ _); [| auto]. apply add_page_frame.
Qed.

(** The background of a code block is one rectangle of the whole computed
    height, painted where the break decision left the cursor. *)
Lemma code_block_rect (code lang : string) (c : FPDF) :
  let s := code_block_place code c in
  exists rest,
    trace (code_block code lang c) = trace s ++
      mkPaint (page s) (cur_layer c)
        (Rect (pdf_x s) (pdf_y s) epw (code_block_height code) "F" C_CODE_BG
              (draw_color c)) :: rest.
Proof.
  cbn zeta. destruct (place_frame_code code c) as (Hl & Hd).
  unfold code_block. set (s := code_block_place code c) in *.
  match goal with |- context [run (?a :: ?b :: ?rest) s] =>
    change (run (a :: b :: rest) s) with (run rest (b (a s)));
    assert (He : extends (b (a s)) (run rest (b (a s)))) end.
  { apply extends_run. repeat constructor; try ext_solve.
    - intros s0. destruct lang; [apply extends_refl |].
      apply extends_run. repeat constructor; ext_solve.
    - intros s0. apply extends_fold. intros s1 a.
      apply extends_run. repeat constructor; ext_solve. }
  destruct He as (d & Hd'). exists d. rewrite Hd'. cbn.
  rewrite Hl, Hd, <- app_assoc. reflexivity.
Qed.

(** The frame of a card likewise. *)
Lemma pattern_card_rect bg fg mark (p : AntiPattern) (c : FPDF) :
  let lines := card_measured_lines p c in
  let s := card_place (card_height lines) (set_font "Sans" "" 9 c) in
  exists rest,
    trace (pattern_card bg fg mark p c) = trace s ++
      mkPaint (page s) (cur_layer c)
        (Rect (pdf_x s) (pdf_y s) 174 (card_height lines) "DF" bg fg) :: rest.
Proof.
  cbn zeta. unfold card_measured_lines.
  pose proof (place_frame_card
                (card_height (multi_cell_dry_run 158 5.5 (p_detail p)
                                (set_font "Sans" "" 9 c)))
                (set_font "Sans" "" 9 c)) as Hl.
  unfold pattern_card.
  set (s := card_place _ _) in *.
  match goal with |- context [run (?a :: ?b :: ?b2 :: ?b3 :: ?rest) s] =>
    change (run (a :: b :: b2 :: b3 :: rest) s) with (run rest (b3 (b2 (b (a s)))));
    assert (He : extends (b3 (b2 (b (a s)))) (run rest (b3 (b2 (b (a s)))))) end.
  { apply extends_run. repeat constructor; ext_solve. }
  destruct He as (d & Hd'). exists d. rewrite Hd'. cbn.
  rewrite Hl, <- app_assoc. reflexivity.
Qed.

(** C2 (amended). On an open page, a code block and an anti-pattern card get
    a page break before them exactly when their computed height exceeds the
    height remaining above the bottom margin; an element whose computed
    height is at most the usable height of a fresh page,
    [pdf_h - b_margin - 5.5], then lies entirely above the bottom margin of
    the page it starts on, and its background rectangle is painted there in
    one piece with that height. *)
Theorem atomic_elements_fit_page (c : FPDF) (code lang : string)
    (bg fg : RGB) (mark : string) (p : AntiPattern) :
  (1 <= page c)%nat ->
  let bottom := pdf_h - b_margin in
  let blk := code_block_place code c in
  let card_h := card_height (card_measured_lines p c) in
  let crd := card_place card_h (set_font "Sans" "" 9 c) in
  (bottom - pdf_y c < code_block_height code <-> page blk = S (page c))
  /\ (bottom - pdf_y c < card_h <-> page crd = S (page c))
  /\ (code_block_height code <= bottom - 5.5 ->
      pdf_y blk + code_block_height code <= bottom)
  /\ (card_h <= bottom - 5.5 -> pdf_y crd + card_h <= bottom)
  /\ (exists rest,
        trace (code_block code lang c) = trace blk ++
          mkPaint (page blk) (cur_layer c)
            (Rect (pdf_x blk) (pdf_y blk) epw (code_block_height code) "F"
                  C_CODE_BG (draw_color c)) :: rest)
  /\ (exists rest,
        trace (pattern_card bg fg mark p c) = trace crd ++
          mkPaint (page crd) (cur_layer c)
            (Rect (pdf_x crd) (pdf_y crd) 174 card_h "DF" bg fg) :: rest).
Proof.
  intros Hp. cbn zeta.
  destruct (code_block_place_spec code c Hp) as (Hb1 & Hb2).
  assert (Hp' : (1 <= page (set_font "Sans" "" 9 c))%nat) by exact Hp.
  destruct (card_place_spec (card_height (card_measured_lines p c))
              (set_font "Sans" "" 9 c) Hp') as (Hc1 & Hc2).
  cbn zeta in *.
  change (pdf_y (set_font "Sans" "" 9 c)) with (pdf_y c) in *.
  change (page (set_font "Sans" "" 9 c)) with (page c) in *.
  repeat split.
  - intros H. apply Hb1. lra.
  - intros H.
    destruct (Qlt_le_dec (pdf_h - b_margin - pdf_y c) (code_block_height code))
      as [Hlt | Hle]; [lra |].
    rewrite (Hb2 Hle) in H. lia.
  - intros H. apply Hc1. lra.
  - intros H.
    destruct (Qlt_le_dec (pdf_h - b_margin - pdf_y c)
                         (card_height (card_measured_lines p c)))
      as [Hlt | Hle]; [lra |].
    rewrite (Hc2 Hle) in H. cbn in H. lia.
  - intros H.
    destruct (Qlt_le_dec (pdf_h - b_margin - pdf_y c) (code_block_height code))
      as [Hlt | Hle].
    + destruct (Hb1 Hlt) as (_ & Hy). rewrite Hy. lra.
    + rewrite (Hb2 Hle). lra.
  - intros H.
    destruct (Qlt_le_dec (pdf_h - b_margin - pdf_y c)
                         (card_height (card_measured_lines p c)))
      as [Hlt | Hle].
    + destruct (Hc1 Hlt) as (_ & Hy). rewrite Hy. lra.
    + rewrite (Hc2 Hle). cbn [pdf_y set_font]. lra.
  - apply code_block_rect.
  - apply pattern_card_rect.
Qed.


(** ** Unknown severities and statuses *)





(** ** Section starts *)

(** C3. The build of the cover page, section 1 and the banner of section 2:
    the cover is page 1, section 1 opens page 2 and ends at y = 138, and the
    banner of section 2, which no [add_page] precedes, is painted on page 2
    as well, at y = 142 under the rows of section 1. *)
Theorem policy_banner_on_overview_page (executive_summary : string) :
  match cover_page executive_summary pdf_init with
  | None => False
  | Some c0 =>
      let c1 := section1_overview c0 in
      let c2 := section2_start c1 in
      page c0 = 1%nat /\ page c1 = 2%nat /\ page c2 = 2%nat
      /\ banners (trace c2) = [("  1.  Overview", 2%nat); ("  2.  Test Policy", 2%nat)]
      /\ pdf_y c1 == 138
      /\ trace c2 = trace c1 ++
           [ mkPaint 2 InBody
               (Cell l_margin (pdf_y c1 + 4) (pdf_w - r_margin - l_margin) 9
                     "  2.  Test Policy" "L" (Some C_BLUE_DARK) C_WHITE
                     (mkFont "Sans" "B" 13)) ]
  end.
Proof.
  vm_compute. repeat split; reflexivity.
Qed.

(** The sibling sections do start a new page: their banner is the first
    body paint of the page [add_page] opens. *)
Lemma section_start_new_page (title : string) (c : FPDF) :
  (1 <= page c)%nat ->
  let c' := h1 title (add_page c) in
  page c' = S (page c)
  /\ exists d, trace c' = trace (add_page c) ++
       [ mkPaint (S (page c)) (cur_layer c)
           (Cell l_margin (pdf_y (add_page c) + 4) (pdf_w - r_margin - l_margin) 9
                 ("  " ++ title) "L" (Some C_BLUE_DARK) C_WHITE
                 (mkFont "Sans" "B" 13)) ] ++ d.
Proof.
  intros Hp. cbn zeta.
  destruct (add_page_frame c) as (Hpg & Hl & Hf & _).
  pose proof (add_page_y c Hp) as Hy.
  pose proof (add_page_x c) as Hx.
  remember (add_page c) as s eqn:Hs. clear Hs.
  assert (Hnb : perform_page_break_if_need_be 9
                  (set_font "Sans" "B" 13
                     (set_text_color C_WHITE (set_fill_color C_BLUE_DARK (ln 4 s))))
                = set_font "Sans" "B" 13
                     (set_text_color C_WHITE (set_fill_color C_BLUE_DARK (ln 4 s)))).
  { unfold perform_page_break_if_need_be, will_page_break.
    assert (E : Qgtb (pdf_y s + 4 + 9) page_break_trigger = false).
    { apply Qgtb_false. rewrite Hy. vm_compute. discriminate. }
    cbn [pdf_y set_font set_text_color set_fill_color ln with_xy]. rewrite E. reflexivity. }
  unfold h1, run. cbn [fold_left]. unfold cell. rewrite Hnb.
  split; [cbn; exact Hpg |].
  exists []. cbn. rewrite Hpg, Hl. reflexivity.
Qed.

(** ** Rows and automatic page breaks *)

Lemma page_break_trigger_lower : 277 < page_break_trigger.
Proof. reflexivity. Qed.

Lemma page_break_trigger_upper : page_break_trigger < 277.001.
Proof. reflexivity. Qed.

Lemma will_page_break_false (h : Q) (c : FPDF) :
  will_page_break h c = false <->
  pdf_y c + h <= page_break_trigger \/ in_footer c = true.
Proof.
  unfold will_page_break. rewrite andb_false_iff, negb_false_iff, Qgtb_false.
  reflexivity.
Qed.

Lemma page_break_fits (h : Q) (c : FPDF) :
  will_page_break h c = false -> perform_page_break_if_need_be h c = c.
Proof. intros H. unfold perform_page_break_if_need_be. rewrite H. reflexivity. Qed.

(** Once the break test of a cell has run, a second cell of the same height
    at the same y does not break again. *)
Lemma no_second_break (h : Q) (c : FPDF) :
  (1 <= page c)%nat -> h <= 271.5 ->
  will_page_break h (perform_page_break_if_need_be h c) = false.
Proof.
  intros Hp Hh. unfold perform_page_break_if_need_be.
  destruct (will_page_break h c) eqn:E; [| exact E].
  apply will_page_break_false. left. cbn [pdf_y with_xy].
  rewrite (add_page_y c Hp). pose proof page_break_trigger_lower. lra.
Qed.

Lemma will_page_break_ext (h : Q) (a b : FPDF) :
  pdf_y a = pdf_y b -> in_footer a = in_footer b ->
  will_page_break h a = will_page_break h b.
Proof. intros Hy Hf. unfold will_page_break. rewrite Hy, Hf. reflexivity. Qed.

Lemma kv_row_eq (key val : string) (fill : bool) (c : FPDF) :
  (1 <= page c)%nat ->
  kv_row key val fill c
  = cell_render 0 6.5 ("  " ++ val) "L" true LMARGIN NEXT
      (set_text_color C_DARK
         (set_font "Sans" "" 9
            (cell_render 48 6.5 ("  " ++ key) "L" true RIGHT TOP
               (perform_page_break_if_need_be 6.5
                  (set_text_color C_MID
                     (set_fill_color (if fill then C_LIGHT else C_WHITE)
                        (set_font "Sans" "B" 9 c))))))).
Proof.
  intros Hp. unfold kv_row, run. cbn [fold_left].
  set (s1 := set_text_color C_MID
               (set_fill_color (if fill then C_LIGHT else C_WHITE)
                  (set_font "Sans" "B" 9 c))).
  assert (Hp1 : (1 <= page s1)%nat) by exact Hp.
  assert (H65 : 6.5 <= 271.5) by (vm_compute; discriminate).
  pose proof (no_second_break 6.5 s1 Hp1 H65) as Hnb.
  unfold cell at 1. rewrite page_break_fits; [reflexivity |].
  rewrite <- Hnb. apply will_page_break_ext; reflexivity.
Qed.

(** X1. A key/value row is never split by a page break: the key cell and
    the value cell are painted on the same page at the same y, and the row
    leaves the cursor at the left margin one row height (6.5) lower. *)
Theorem kv_row_not_split (key val : string) (fill : bool) (c : FPDF) :
  (1 <= page c)%nat ->
  let c' := kv_row key val fill c in
  let bg := if fill then C_LIGHT else C_WHITE in
  exists d y,
    trace c' = trace c ++ d ++
      [ mkPaint (page c') (cur_layer c)
          (Cell (pdf_x c) y 48 6.5 ("  " ++ key) "L" (Some bg) C_MID
                (mkFont "Sans" "B" 9));
        mkPaint (page c') (cur_layer c)
          (Cell (pdf_x c + 48) y (pdf_w - r_margin - (pdf_x c + 48)) 6.5
                ("  " ++ val) "L" (Some bg) C_DARK (mkFont "Sans" "" 9)) ]
    /\ Forall (fun pt => layer pt <> InBody) d
    /\ pdf_x c' = l_margin /\ pdf_y c' = y + 6.5
    /\ (y + 6.5 <= page_break_trigger \/ in_footer c = true).
Proof.
  intros Hp. cbn zeta. rewrite (kv_row_eq key val fill c Hp).
  set (s1 := set_text_color C_MID
               (set_fill_color (if fill then C_LIGHT else C_WHITE)
                  (set_font "Sans" "B" 9 c))).
  assert (Hp1 : (1 <= page s1)%nat) by exact Hp.
  assert (H65 : 6.5 <= 271.5) by (vm_compute; discriminate).
  pose proof (no_second_break 6.5 s1 Hp1 H65) as Hnb.
  destruct (perform_page_break_frame 6.5 s1)
    as (Hx & Hl & Hf & Hfont & Hfc & Htc & Hdc & Hpg).
  destruct (perform_page_break_paints 6.5 s1) as (df & dh & Ht & Hdf & Hdh & _).
  remember (perform_page_break_if_need_be 6.5 s1) as b eqn:Hb.
  exists (df ++ dh), (pdf_y b).
  cbn. cbn in Hx, Hl, Hf, Hfc, Htc, Hfont, Ht.
  rewrite Ht, Hx, Hl, Hfc, Htc, Hfont, <- !app_assoc.
  change (Qeq_bool 48 0) with false. change (Qeq_bool 0 0) with true. cbn iota.
  split; [reflexivity |]. split.
  - apply Forall_app. split; (eapply Forall_impl; [eassumption |]);
      intros pt (_ & E & _); rewrite E; discriminate.
  - split; [reflexivity |]. split; [reflexivity |].
    apply will_page_break_false in Hnb. rewrite <- Hf. exact Hnb.
Qed.

(** ** Painting on the current page *)

Lemma paints_here_refl (s : FPDF) : paints_here [] s s.
Proof.
  unfold paints_here. repeat split. exists []. rewrite app_nil_r. repeat split.
  constructor.
Qed.

Lemma paints_here_trans t1 t2 (a b c : FPDF) :
  paints_here t1 a b -> paints_here t2 b c -> paints_here (t1 ++ t2) a c.
Proof.
  intros (Hp1 & Hl1 & Hf1 & d1 & Ht1 & Hd1 & Hx1) (Hp2 & Hl2 & Hf2 & d2 & Ht2 & Hd2 & Hx2).
  unfold paints_here. rewrite Hp2, Hl2, Hf2. repeat split; try assumption.
  exists (d1 ++ d2). rewrite Ht2, Ht1, <- app_assoc. split; [reflexivity |]. split.
  - apply Forall_app. split; [assumption |].
    rewrite Hp1, Hl1 in Hd2. exact Hd2.
  - unfold cell_texts in *. rewrite omap_app, Hx1, Hx2. reflexivity.
Qed.

(** A state change that paints nothing. *)
Lemma paints_here_set (s s' : FPDF) :
  page s' = page s -> cur_layer s' = cur_layer s -> in_footer s' = in_footer s ->
  trace s' = trace s -> paints_here [] s s'.
Proof.
  intros Hp Hl Hf Ht. unfold paints_here. repeat split; try assumption.
  exists []. rewrite app_nil_r. repeat split; [assumption | constructor].
Qed.

Lemma paints_here_rect x y w h st (s : FPDF) : paints_here [] s (rect x y w h st s).
Proof.
  unfold paints_here. repeat split. eexists. split; [reflexivity |].
  split; [repeat constructor | reflexivity].
Qed.

Lemma paints_here_line x1 y1 x2 y2 (s : FPDF) : paints_here [] s (line x1 y1 x2 y2 s).
Proof.
  unfold paints_here. repeat split. eexists. split; [reflexivity |].
  split; [repeat constructor | reflexivity].
Qed.

(** A cell that fits above the page break trigger is painted in place. *)
Lemma paints_here_cell w h txt al fl nx ny (s : FPDF) :
  will_page_break h s = false ->
  paints_here [txt] s (cell w h txt al fl nx ny s)
  /\ pdf_y (cell w h txt al fl nx ny s)
     = match ny with TOP => pdf_y s | NEXT => pdf_y s + h end.
Proof.
  intros H. unfold cell. rewrite (page_break_fits h s H).
  split; [| reflexivity].
  unfold paints_here. repeat split. eexists. split; [reflexivity |].
  split; [repeat constructor | reflexivity].
Qed.

Lemma split_length_pos (sep : ascii) (s : string) :
  (1 <= List.length (split sep s))%nat.
Proof.
  induction s as [| ch s IH]; cbn; [lia |].
  destruct (Ascii.eqb ch sep); cbn; [lia |].
  destruct (split sep s); cbn in *; lia.
Qed.

Lemma len_cons {A : Type} (a : A) (l : list A) : len (a :: l) == len l + 1.
Proof.
  unfold len. cbn [List.length]. rewrite Nat2Z.inj_succ, <- Z.add_1_r, inject_Z_plus.
  reflexivity.
Qed.

Lemma len_nonneg {A : Type} (l : list A) : 0 <= len l.
Proof.
  unfold len. change 0 with (inject_Z 0). rewrite <- Zle_Qle. lia.
Qed.

(** The lines of a code block, when they all fit above the trigger. *)
Lemma code_lines_fit (x w : Q) (lines : list string) :
  forall s,
  pdf_y s + len lines * 4.5 <= page_break_trigger ->
  let s' := fold_left
              (fun acc t => run [ set_x x;
                                  cell w 4.5 t "L" false LMARGIN NEXT ] acc)
              lines s in
  paints_here lines s s' /\ pdf_y s' == pdf_y s + len lines * 4.5.
Proof.
  induction lines as [| t lines IH]; intros s Hfit; cbn zeta.
  - cbn [fold_left]. split; [apply paints_here_refl |].
    unfold len. cbn. ring.
  - cbn [fold_left].
    change (run [set_x x; cell w 4.5 t "L" false LMARGIN NEXT] s)
      with (cell w 4.5 t "L" false LMARGIN NEXT (set_x x s)).
    pose proof (len_nonneg lines) as Hn.
    rewrite len_cons in Hfit.
    assert (Hnb : will_page_break 4.5 (set_x x s) = false).
    { apply will_page_break_false. left. cbn [pdf_y set_x with_xy]. nra. }
    destruct (paints_here_cell w 4.5 t "L" false LMARGIN NEXT (set_x x s) Hnb)
      as (Hc & Hy).
    cbn [pdf_y set_x with_xy] in Hy.
    set (s1 := cell w 4.5 t "L" false LMARGIN NEXT (set_x x s)) in *.
    destruct (IH s1) as (Hrest & Hy').
    { rewrite Hy. lra. }
    cbn zeta in Hrest, Hy'. split.
    + change (t :: lines) with ([] ++ [t] ++ lines).
      eapply paints_here_trans; [| eapply paints_here_trans; [exact Hc | exact Hrest]].
      apply paints_here_set; reflexivity.
    + rewrite Hy', Hy, len_cons. ring.
Qed.

Lemma code_block_height_min (code : string) : 12.5 <= code_block_height code.
Proof.
  unfold code_block_height, len.
  pose proof (split_length_pos newline code) as H.
  assert (H1 : 1 <= inject_Z (Z.of_nat (List.length (split newline code)))).
  { change 1 with (inject_Z 1). rewrite <- Zle_Qle. lia. }
  lra.
Qed.

Lemma pdf_y_set_xy x y (s : FPDF) : pdf_y (set_xy x y s) = from_bottom y.
Proof. reflexivity. Qed.

Lemma pdf_x_set_xy x y (s : FPDF) : pdf_x (set_xy x y s) = from_right x.
Proof. reflexivity. Qed.

(** Where the break decision of [code_block] leaves the cursor. *)
Lemma code_block_place_cursor (code : string) (c : FPDF) :
  (1 <= page c)%nat -> 0 <= pdf_x c -> 0 <= pdf_y c ->
  0 <= pdf_x (code_block_place code c) /\ 0 <= pdf_y (code_block_place code c).
Proof.
  intros Hp Hx Hy. unfold code_block_place. destruct (Qgtb _ _); [| auto].
  rewrite add_page_x, (add_page_y c Hp). split; vm_compute; discriminate.
Qed.

Lemma card_place_cursor (card_h : Q) (c : FPDF) :
  (1 <= page c)%nat -> 0 <= pdf_x c -> 0 <= pdf_y c ->
  0 <= pdf_x (card_place card_h c) /\ 0 <= pdf_y (card_place card_h c).
Proof.
  intros Hp Hx Hy. unfold card_place. destruct (Qgtb _ _); [| auto].
  rewrite add_page_x, (add_page_y c Hp). split; vm_compute; discriminate.
Qed.

(** X2. A code block started with the cursor on an open page, and whose
    computed height is at most the usable height of a fresh page, is painted
    entirely on the page its break decision chose: the background
    rectangle, the language tag (if any) and then every line of the code
    once and in order, with no page break in between; the cursor ends 2
    below the rectangle, at its left edge. *)
Theorem code_block_on_one_page (code lang : string) (c : FPDF) :
  (1 <= page c)%nat ->
  0 <= pdf_x c -> 0 <= pdf_y c ->
  code_block_height code <= pdf_h - b_margin - 5.5 ->
  let blk := code_block_place code c in
  let c' := code_block code lang c in
  paints_here ((match lang with EmptyString => [] | _ => [lang] end)
                 ++ split newline code) blk c'
  /\ pdf_x c' = pdf_x blk
  /\ pdf_y c' = pdf_y blk + code_block_height code + 2.
Proof.
  intros Hp Hx0 Hy0 Hh. cbn zeta.
  assert (Hfit : pdf_y (code_block_place code c) + code_block_height code
                 <= page_break_trigger).
  { unfold page_break_trigger.
    destruct (code_block_place_spec code c Hp) as (Hb1 & Hb2). cbn zeta in *.
    destruct (Qlt_le_dec (pdf_h - b_margin - pdf_y c) (code_block_height code))
      as [Hlt | Hle].
    - destruct (Hb1 Hlt) as (_ & Hy). rewrite Hy. lra.
    - rewrite (Hb2 Hle). lra. }
  destruct (code_block_place_cursor code c Hp Hx0 Hy0) as (Hbx & Hby).
  pose proof (code_block_height_min code) as Hmin.
  unfold code_block.
  remember (code_block_place code c) as blk eqn:Hblk. clear Hblk.
  unfold get_x, get_y.
  match goal with |- context [run [?a; ?b; ?l; ?d; ?e; ?f; ?g; ?h; ?i] blk] =>
    change (run [a; b; l; d; e; f; g; h; i] blk)
      with (i (h (g (f (e (d (l (b (a blk)))))))));
    set (s2 := b (a blk));
    set (s3 := l s2);
    set (s6 := f (e (d s3)));
    set (s7 := g s6)
  end.
  assert (H2 : paints_here [] blk s2).
  { subst s2. unfold paints_here. repeat split.
    eexists. split; [rewrite trace_rect, trace_set_fill_color; reflexivity |].
    split; [repeat constructor | reflexivity]. }
  assert (H3 : paints_here (match lang with EmptyString => [] | _ => [lang] end) s2 s3).
  { subst s3. cbv beta. destruct lang as [| ch lang]; [apply paints_here_refl |].
    match goal with |- context [run [?a; ?b; ?l; ?d] s2] =>
      change (run [a; b; l; d] s2) with (d (l (b (a s2)))) end.
    cbv beta.
    match goal with |- paints_here _ _ (cell ?w ?h ?t ?al ?fl ?nx ?ny ?s) =>
      assert (Hnb : will_page_break h s = false) end.
    { apply will_page_break_false. left. rewrite pdf_y_set_xy.
      rewrite from_bottom_nonneg by lra. lra. }
    match goal with |- paints_here _ _ (cell ?w ?h ?t ?al ?fl ?nx ?ny ?s) =>
      destruct (paints_here_cell w h t al fl nx ny s Hnb) as (Hc & _) end.
    change [String ch lang] with ([] ++ [String ch lang]).
    eapply paints_here_trans; [| exact Hc].
    apply paints_here_set; reflexivity. }
  assert (H6 : paints_here [] s3 s6) by (apply paints_here_set; reflexivity).
  assert (H7 : paints_here (split newline code) s6 s7).
  { subst s7. cbv beta. apply code_lines_fit.
    subst s6. rewrite pdf_y_set_xy. rewrite from_bottom_nonneg by lra.
    unfold code_block_height in Hfit. lra. }
  split; [| split].
  - match goal with |- paints_here (?L ++ ?S) _ _ =>
      replace (L ++ S) with ([] ++ L ++ [] ++ S ++ [])
        by (cbn [app]; rewrite app_nil_r; reflexivity) end.
    eapply paints_here_trans; [exact H2 |].
    eapply paints_here_trans; [exact H3 |].
    eapply paints_here_trans; [exact H6 |].
    eapply paints_here_trans; [exact H7 |].
    apply paints_here_set; reflexivity.
  - change (pdf_x (set_xy (pdf_x blk) (pdf_y blk + code_block_height code + 2)
                     (set_text_color C_DARK s7)) = pdf_x blk).
    rewrite pdf_x_set_xy. apply from_right_nonneg, Hbx.
  - change (pdf_y (set_xy (pdf_x blk) (pdf_y blk + code_block_height code + 2)
                     (set_text_color C_DARK s7))
            = pdf_y blk + code_block_height code + 2).
    rewrite pdf_y_set_xy. apply from_bottom_nonneg. lra.
Qed.

(** ** The body cursor after a page break *)

Lemma add_page_header_bar (c : FPDF) :
  (1 <= page c)%nat ->
  In (mkPaint (S (page c)) InHeader (Rect 0 0 210 10 "F" C_DARK (draw_color c)))
     (trace (add_page c)).
Proof.
  intros Hp. destruct c as [pg x y f fc tc dc lw inf ly tr].
  cbn [page] in Hp. destruct pg as [| n]; [lia |].
  cbn. apply in_or_app. left. apply in_or_app. right. left. reflexivity.
Qed.

(** X3. A cell that triggers an automatic page break is painted on the new
    page at y = 5.5, where [header] leaves the cursor: inside the band
    0..10 that the running header bar of that page covers. *)
Theorem page_break_lands_in_header_bar w h txt al fl nx ny (c : FPDF) :
  (1 <= page c)%nat ->
  will_page_break h c = true ->
  let c' := cell w h txt al fl nx ny c in
  exists pre y,
    trace c' = pre ++
      [ mkPaint (S (page c)) (cur_layer c)
          (Cell (pdf_x c) y (if Qeq_bool w 0 then pdf_w - r_margin - pdf_x c else w)
                h txt al (if fl then Some (fill_color c) else None)
                (text_color c) (font c)) ]
    /\ In (mkPaint (S (page c)) InHeader
             (Rect 0 0 210 10 "F" C_DARK (draw_color c))) pre
    /\ y == 5.5 /\ 0 < y /\ y < 10.
Proof.
  intros Hp Hb. cbn zeta. unfold cell, perform_page_break_if_need_be. rewrite Hb.
  destruct (add_page_frame c) as (Hpg & Hl & Hf & Hfont & Hfc & Htc & Hdc).
  pose proof (add_page_y c Hp) as Hy.
  exists (trace (add_page c)), (pdf_y (add_page c)).
  cbn -[add_page]. rewrite Hpg, Hl, Hfont, Hfc, Htc.
  split; [reflexivity |]. split; [apply add_page_header_bar, Hp |].
  rewrite Hy. repeat split; reflexivity.
Qed.

(** ** Measured and painted height at one width *)

Lemma multi_cell_lines_fit (w h : Q) (lines : list string) :
  0 <= h ->
  forall s,
  pdf_y s + len lines * h <= page_break_trigger ->
  let s' := fold_left (fun acc t => cell w h t "J" false LEFT NEXT acc) lines s in
  paints_here lines s s' /\ pdf_y s' == pdf_y s + len lines * h.
Proof.
  intros Hh. induction lines as [| t lines IH]; intros s Hfit; cbn zeta.
  - cbn [fold_left]. split; [apply paints_here_refl |].
    unfold len. cbn. ring.
  - cbn [fold_left].
    pose proof (len_nonneg lines) as Hn.
    rewrite len_cons in Hfit.
    assert (Hnb : will_page_break h s = false).
    { apply will_page_break_false. left. nra. }
    destruct (paints_here_cell w h t "J" false LEFT NEXT s Hnb) as (Hc & Hy).
    set (s1 := cell w h t "J" false LEFT NEXT s) in *.
    destruct (IH s1) as (Hrest & Hy').
    { rewrite Hy. lra. }
    cbn zeta in Hrest, Hy'. split.
    + change (t :: lines) with ([t] ++ lines).
      eapply paints_here_trans; [exact Hc | exact Hrest].
    + rewrite Hy', Hy, len_cons. ring.
Qed.

(** X5. At one width, measuring and painting agree: when the lines the dry
    run of [multi_cell] reports fit above the page break trigger, painting
    the same text at the same width on the same canvas lays out exactly
    those lines, on the current page, and moves the cursor down by their
    number times the line height; [body], on an open page, adds its gap of
    1. *)
Theorem body_height_is_measured_height (txt : string) (indent : Q) (c : FPDF) :
  let s := set_x (l_margin + indent)
             (set_text_color C_MID (set_font "Sans" "" 9.5 c)) in
  let lines := multi_cell_dry_run 0 5.5 txt s in
  (1 <= page c)%nat ->
  pdf_y c + len lines * 5.5 <= page_break_trigger ->
  paints_here lines c (body txt indent c)
  /\ pdf_y (body txt indent c) == pdf_y c + len lines * 5.5 + 1
  /\ pdf_x (body txt indent c) = l_margin.
Proof.
  cbn zeta. intros _ Hfit. unfold body.
  match goal with |- context [run [?a; ?b; ?x; ?m; ?e; ?f] c] =>
    change (run [a; b; x; m; e; f] c) with (f (e (m (x (b (a c)))))) end.
  set (s := set_x (l_margin + indent)
              (set_text_color C_MID (set_font "Sans" "" 9.5 c))) in *.
  assert (H55 : 0 <= 5.5) by (vm_compute; discriminate).
  unfold multi_cell_dry_run in *.
  destruct (multi_cell_lines_fit
              (if Qeq_bool 0 0 then pdf_w - r_margin - pdf_x s else 0) 5.5
              (multi_cell_lines 0 txt s) H55 s Hfit) as (Hp & Hy).
  cbn zeta in Hp, Hy.
  split; [| split; [| reflexivity]].
  - replace (multi_cell_lines 0 txt s) with ([] ++ multi_cell_lines 0 txt s ++ [])
      by (cbn [app]; apply app_nil_r).
    eapply paints_here_trans; [apply paints_here_set; reflexivity |].
    eapply paints_here_trans; [exact Hp |].
    apply paints_here_set; reflexivity.
  - unfold multi_cell. cbn [ln set_text_color with_xy pdf_y]. rewrite Hy.
    reflexivity.
Qed.

(** ** A card on one page *)

Lemma len_le {A B : Type} (l : list A) (l' : list B) :
  (List.length l <= List.length l')%nat -> len l <= len l'.
Proof. intros H. unfold len. rewrite <- Zle_Qle. lia. Qed.

Lemma pdf_y_set_font fam sty sz (s : FPDF) : pdf_y (set_font fam sty sz s) = pdf_y s.
Proof. reflexivity. Qed.
Lemma pdf_y_set_text_color col (s : FPDF) : pdf_y (set_text_color col s) = pdf_y s.
Proof. reflexivity. Qed.

(** X6. An anti-pattern card started with the cursor on an open page, that
    fits on a fresh page, and whose body paint (width 164) needs no more
    lines than its dry run (width 158) measured, is painted entirely on the
    page its break decision chose: the frame, the title line and then the
    body lines, with no page break in between, the last body line ending
    above the bottom edge of the frame; the cursor ends 3 below the
    frame. *)
Theorem pattern_card_on_one_page (bg fg : RGB) (mark : string)
    (p : AntiPattern) (c : FPDF) :
  let measured := card_measured_lines p c in
  let painted := card_painted_lines p c in
  let card_h := card_height measured in
  let crd := card_place card_h (set_font "Sans" "" 9 c) in
  let c' := pattern_card bg fg mark p c in
  (1 <= page c)%nat ->
  0 <= pdf_x c -> 0 <= pdf_y c ->
  card_h <= pdf_h - b_margin - 5.5 ->
  (List.length painted <= List.length measured)%nat ->
  paints_here ((mark ++ "  " ++ p_title p)%string :: painted) crd c'
  /\ pdf_y crd + 2 + 5.5 + len painted * 5.5 <= pdf_y crd + card_h
  /\ pdf_y crd + card_h <= page_break_trigger
  /\ pdf_y c' = pdf_y crd + card_h + 3.
Proof.
  cbn zeta. intros Hp Hx0 Hy0 Hh Hlen.
  assert (Hp9 : (1 <= page (set_font "Sans" "" 9 c))%nat) by exact Hp.
  assert (Hfit : pdf_y (card_place (card_height (card_measured_lines p c))
                          (set_font "Sans" "" 9 c))
                 + card_height (card_measured_lines p c) <= page_break_trigger).
  { unfold page_break_trigger.
    destruct (card_place_spec (card_height (card_measured_lines p c))
                (set_font "Sans" "" 9 c) Hp9) as (Hb1 & Hb2).
    cbn zeta in Hb1, Hb2.
    rewrite pdf_y_set_font in Hb1, Hb2.
    destruct (Qlt_le_dec (pdf_h - b_margin - pdf_y c)
                         (card_height (card_measured_lines p c))) as [Hlt | Hle].
    - destruct (Hb1 Hlt) as (_ & Hy). rewrite Hy. lra.
    - rewrite (Hb2 Hle), pdf_y_set_font. lra. }
  destruct (card_place_cursor (card_height (card_measured_lines p c))
              (set_font "Sans" "" 9 c) Hp9 Hx0 Hy0) as (Hbx & Hby).
  apply len_le in Hlen.
  pose proof (len_nonneg (card_painted_lines p c)) as Hn.
  pose proof (len_nonneg (card_measured_lines p c)) as Hm.
  unfold pattern_card.
  change (multi_cell_dry_run 158 5.5 (p_detail p) (set_font "Sans" "" 9 c))
    with (card_measured_lines p c).
  remember (card_measured_lines p c) as measured eqn:Hmeas. clear Hmeas.
  remember (card_place (card_height measured) (set_font "Sans" "" 9 c)) as crd eqn:Hc.
  clear Hc.
  assert (Hch : card_height measured == 11 + len measured * 5.5)
    by (unfold card_height; ring).
  unfold get_x, get_y.
  match goal with
  | |- context [run [?a1; ?a2; ?a3; ?a4; ?a5; ?a6; ?a7; ?a8; ?a9; ?a10; ?a11;
                     ?a12; ?a13; ?a14] crd] =>
      change (run [a1; a2; a3; a4; a5; a6; a7; a8; a9; a10; a11; a12; a13; a14] crd)
        with (a14 (a13 (a12 (a11 (a10 (a9 (a8 (a7 (a6 (a5 (a4 (a3 (a2 (a1 crd))))))))))))));
      set (s7 := a7 (a6 (a5 (a4 (a3 (a2 (a1 crd)))))));
      set (s8 := a8 s7);
      set (s11 := a11 (a10 (a9 s8)));
      set (s12 := a12 s11)
  end.
  assert (Hy7 : pdf_y s7 = pdf_y crd + 2).
  { subst s7. rewrite pdf_y_set_text_color, pdf_y_set_font, pdf_y_set_xy.
    apply from_bottom_nonneg. lra. }
  assert (H7 : paints_here [] crd s7).
  { subst s7. unfold paints_here. repeat split.
    eexists. split.
    - strip_setters. rewrite trace_rect. strip_setters. reflexivity.
    - split; [repeat constructor | reflexivity]. }
  assert (Hnb : will_page_break 5.5 s7 = false).
  { apply will_page_break_false. left. rewrite Hy7. lra. }
  assert (H8 : paints_here [(mark ++ "  " ++ p_title p)%string] s7 s8
               /\ pdf_y s8 = pdf_y s7 + 5.5).
  { subst s8. cbv beta. apply (paints_here_cell 0 5.5 _ "L" false LMARGIN NEXT s7 Hnb). }
  destruct H8 as (H8 & Hy8).
  assert (H11 : paints_here [] s8 s11) by (apply paints_here_set; reflexivity).
  assert (Hy11 : pdf_y s11 = pdf_y s8).
  { subst s11. cbv beta. rewrite pdf_y_set_text_color, pdf_y_set_font, pdf_y_set_xy.
    unfold get_y. apply from_bottom_nonneg. rewrite Hy8, Hy7. lra. }
  assert (H55 : 0 <= 5.5) by (vm_compute; discriminate).
  assert (H12 : paints_here (card_painted_lines p c) s11 s12).
  { assert (Hq : pdf_y s11 + len (card_painted_lines p c) * 5.5
                 <= page_break_trigger) by (rewrite Hy11, Hy8, Hy7; lra).
    destruct (multi_cell_lines_fit
                (if Qeq_bool 164 0 then pdf_w - r_margin - pdf_x s11 else 164)
                5.5 (card_painted_lines p c) H55 s11 Hq) as (Hfold & _).
    cbn zeta in Hfold.
    pose proof (fun Hs => paints_here_trans _ [] _ _ s12 Hfold Hs) as Ht.
    rewrite app_nil_r in Ht. apply Ht.
    subst s12. cbv beta. unfold multi_cell.
    change (multi_cell_lines 164 (p_detail p) s11) with (card_painted_lines p c).
    apply paints_here_set; reflexivity. }
  split; [| split; [lra | split; [exact Hfit |]]].
  - replace ((mark ++ "  " ++ p_title p)%string :: card_painted_lines p c)
      with ([] ++ [(mark ++ "  " ++ p_title p)%string] ++ []
               ++ card_painted_lines p c ++ [])
      by (cbn [app]; rewrite app_nil_r; reflexivity).
    eapply paints_here_trans; [exact H7 |].
    eapply paints_here_trans; [exact H8 |].
    eapply paints_here_trans; [exact H11 |].
    eapply paints_here_trans; [exact H12 |].
    apply paints_here_set; reflexivity.
  - rewrite pdf_y_set_text_color, pdf_y_set_xy.
    apply from_bottom_nonneg. lra.
Qed.

(** ** The tool server *)

Lemma length_app (a b : string) :
  String.length (a ++ b) = (String.length a + String.length b)%nat.
Proof.
  induction a as [| ch a IH]; [reflexivity |].
  change (S (String.length (a ++ b)) = S (String.length a + String.length b)).
  f_equal. exact IH.
Qed.

Lemma str_app_assoc (a b c : string) : ((a ++ b) ++ c = a ++ b ++ c)%string.
Proof.
  induction a as [| ch a IH]; [reflexivity |].
  change (String ch ((a ++ b) ++ c) = String ch (a ++ b ++ c))%string.
  f_equal. exact IH.
Qed.

Lemma str_app_nil_r (a : string) : (a ++ "")%string = a.
Proof.
  induction a as [| ch a IH]; [reflexivity |].
  change (String ch (a ++ "") = String ch a)%string. f_equal. exact IH.
Qed.

Lemma length_str_take (n : nat) (s : string) :
  String.length (str_take n s) = Nat.min n (String.length s).
Proof.
  revert s. induction n as [| n IH]; intros [| ch s]; try reflexivity.
  change (S (String.length (str_take n s)) = S (Nat.min n (String.length s))).
  f_equal. apply IH.
Qed.

Lemma str_take_app (p r : string) (n : nat) :
  str_take (String.length p + n) (p ++ r) = (p ++ str_take n r)%string.
Proof.
  induction p as [| ch p IH]; [reflexivity |].
  change (String ch (str_take (String.length p + n) (p ++ r))
          = String ch (p ++ str_take n r)).
  f_equal. exact IH.
Qed.

Lemma prefix_app (p r : string) : String.prefix p (p ++ r) = true.
Proof.
  induction p as [| ch p IH]; [destruct r; reflexivity |].
  simpl. destruct (ascii_dec ch ch); [exact IH | contradiction].
Qed.

Lemma truncate_length (output : string) :
  (String.length (truncate output) <= MAX_OUTPUT_LENGTH + 15)%nat.
Proof.
  unfold truncate. destruct (MAX_OUTPUT_LENGTH <? String.length output)%nat eqn:E.
  - apply Nat.ltb_lt in E. rewrite length_app, length_str_take.
    change (String.length (nl ++ "...(truncated)")) with 15%nat. lia.
  - apply Nat.ltb_ge in E. lia.
Qed.

Lemma truncate_keeps_prefix (p r : string) :
  (String.length p <= MAX_OUTPUT_LENGTH)%nat ->
  String.prefix p (truncate (p ++ r)) = true.
Proof.
  intros Hp. unfold truncate.
  destruct (MAX_OUTPUT_LENGTH <? String.length (p ++ r))%nat; [| apply prefix_app].
  replace MAX_OUTPUT_LENGTH
    with (String.length p + (MAX_OUTPUT_LENGTH - String.length p))%nat by lia.
  rewrite str_take_app.
  rewrite str_app_assoc. apply prefix_app.
Qed.

(** X7. Whatever a command prints, the report [execute_shell_cmd] returns
    for a run that completed is at most 4015 characters long (4000 kept and
    the 15 of the truncation mark), it still starts with "Exit code: ", and
    a report of at most 4000 characters is returned whole. *)
Theorem completed_report_bounded (run : string -> RunOutcome)
    (command : string) (returncode : Z) (stdout stderr : string) :
  run command = Completed returncode stdout stderr ->
  let full :=
    ("Exit code: " ++ pretty returncode ++ nl
       ++ (if nonempty stdout then nl ++ "--- STDOUT ---" ++ nl ++ stdout else "")
       ++ (if nonempty stderr then nl ++ "--- STDERR ---" ++ nl ++ stderr else ""))%string in
  (String.length (execute_shell_cmd run command) <= 4015)%nat
  /\ String.prefix "Exit code: " (execute_shell_cmd run command) = true
  /\ ((String.length full <= 4000)%nat -> execute_shell_cmd run command = full).
Proof.
  intros E. cbn zeta. unfold execute_shell_cmd. rewrite E. unfold exit_report.
  split; [apply truncate_length |]. split.
  - destruct (nonempty stdout), (nonempty stderr);
      rewrite ?str_app_assoc;
      apply truncate_keeps_prefix; cbn; unfold MAX_OUTPUT_LENGTH; lia.
  - intros Hlen.
    assert (Hfull :
      (if nonempty stderr
       then ((if nonempty stdout
              then ("Exit code: " ++ pretty returncode ++ nl) ++ nl
                     ++ "--- STDOUT ---" ++ nl ++ stdout
              else "Exit code: " ++ pretty returncode ++ nl)
             ++ nl ++ "--- STDERR ---" ++ nl ++ stderr)
       else (if nonempty stdout
             then ("Exit code: " ++ pretty returncode ++ nl) ++ nl
                    ++ "--- STDOUT ---" ++ nl ++ stdout
             else "Exit code: " ++ pretty returncode ++ nl))%string
      = ("Exit code: " ++ pretty returncode ++ nl
           ++ (if nonempty stdout then nl ++ "--- STDOUT ---" ++ nl ++ stdout else "")
           ++ (if nonempty stderr then nl ++ "--- STDERR ---" ++ nl ++ stderr else ""))%string).
    { destruct (nonempty stdout), (nonempty stderr);
        rewrite ?str_app_assoc, ?str_app_nil_r; reflexivity. }
    cbn zeta. rewrite Hfull. unfold truncate.
    apply Nat.ltb_ge in Hlen. unfold MAX_OUTPUT_LENGTH. rewrite Hlen. reflexivity.
Qed.

Lemma package_name_body (body : string) :
  nonempty body = true -> all_chars pkg_char body = true ->
  PACKAGE_NAME_RE_match body = true
  /\ PACKAGE_NAME_RE_match (body ++ nl) = true.
Proof.
  induction body as [| ch body IH]; [discriminate |].
  intros _ Hall. cbn [all_chars] in Hall. apply andb_true_iff in Hall as (Hch & Hrest).
  destruct body as [| ch' body'].
  - change (String ch "" ++ nl)%string with (String ch nl).
    cbn [PACKAGE_NAME_RE_match]. rewrite Hch. split; reflexivity.
  - destruct (IH eq_refl Hrest) as (IH1 & IH2).
    change (String ch (String ch' body') ++ nl)%string
      with (String ch (String ch' body' ++ nl)).
    cbn [PACKAGE_NAME_RE_match] in *. rewrite Hch.
    split.
    + rewrite IH1. rewrite !orb_true_r. reflexivity.
    + rewrite IH2. rewrite !orb_true_r. reflexivity.
Qed.

(** X8. The package name test accepts exactly the non-empty strings over
    [a-z0-9-], and those strings followed by one newline: the [$] of the
    pattern lets a final newline through. *)
Theorem package_name_accepted (s : string) :
  PACKAGE_NAME_RE_match s = true <->
  exists body, nonempty body = true /\ all_chars pkg_char body = true
               /\ (s = body \/ s = (body ++ nl)%string).
Proof.
  split.
  - induction s as [| ch s IH]; [discriminate |].
    cbn [PACKAGE_NAME_RE_match]. intros H.
    apply andb_true_iff in H as (Hch & H).
    apply orb_true_iff in H as [H | H]; [apply orb_true_iff in H as [H | H] |].
    + apply String.eqb_eq in H. subst s.
      exists (String ch ""). cbn. rewrite Hch. auto.
    + apply String.eqb_eq in H. subst s.
      exists (String ch ""). cbn. rewrite Hch. auto.
    + destruct (IH H) as (body & Hne & Hall & Hs).
      exists (String ch body). cbn. rewrite Hch, Hall.
      repeat split. destruct Hs as [-> | ->]; auto.
  - intros (body & Hne & Hall & [-> | ->]); apply package_name_body; assumption.
Qed.


End Report.

(** * Evaluations on sample inputs *)


(** C1. With a fixed-pitch metric the sample detail text (84 glyphs, 160.02
    wide in Sans 9) wraps into two lines at the measuring width 158 but
    fits on one line at the painting width 164: the card reserves two body
    lines (a frame of height 22) and its body paint lays out one line of
    height 5.5. *)
Theorem card_measure_paint_mismatch :
  let c0 := add_page sample_target sample_sid sample_now pdf_init in
  let card := pattern_card sample_target sample_sid sample_now fixed_pitch_width
                C_POS_BG C_GREEN "✓" sample_pattern c0 in
  List.length (card_measured_lines fixed_pitch_width sample_pattern c0) = 2%nat
  /\ List.length (card_painted_lines fixed_pitch_width sample_pattern c0) = 1%nat
  /\ map Qred (card_frame_heights (trace card)) = [22]
  /\ map snd (card_body_cells (trace card)) = [5.5]
  /\ ~ len (card_measured_lines fixed_pitch_width sample_pattern c0) * 5.5
       == len (card_painted_lines fixed_pitch_width sample_pattern c0) * 5.5.
Proof.
  vm_compute. repeat split; try reflexivity. discriminate.
Qed.


(** A code block of 60 lines is 278 high: the break decision opens page 3
    and the block starts at y = 5.5, yet its rectangle still reaches below
    the bottom margin of that page. *)
Lemma long_code_block_crosses_bottom :
  let c := ln 100 (add_page sample_target sample_sid sample_now
                     (add_page sample_target sample_sid sample_now pdf_init)) in
  let blk := code_block_place sample_target sample_sid sample_now sixty_lines c in
  page c = 2%nat /\ page blk = 3%nat /\ pdf_y blk == 5.5
  /\ code_block_height sixty_lines == 278
  /\ ~ pdf_y blk + code_block_height sixty_lines <= pdf_h - b_margin.
Proof.
  cbn zeta. split; [vm_compute; reflexivity |].
  split; [vm_compute; reflexivity |].
  split; [vm_compute; reflexivity |].
  split; [vm_compute; reflexivity |].
  vm_compute. intros H. apply H. reflexivity.
Qed.


Lemma atomic_elements_fit_page_witness :
  let c := ln 100 (add_page sample_target sample_sid sample_now pdf_init) in
  let blk := code_block_place sample_target sample_sid sample_now "a" c in
  (1 <= page c)%nat /\ pdf_y blk + code_block_height "a" <= pdf_h - b_margin.
Proof.
  cbn zeta.
  assert (H : (1 <= page (ln 100 (add_page sample_target sample_sid sample_now
                                    pdf_init)))%nat) by (vm_compute; lia).
  split; [exact H |].
  destruct (atomic_elements_fit_page sample_target sample_sid sample_now
              fixed_pitch_width _ "a" "" C_POS_BG C_GREEN "✓" sample_pattern H)
    as (_ & _ & Hfit & _).
  apply Hfit. vm_compute. discriminate.
Defined.


Lemma header_footer_on_pages_witness :
  let c := add_page sample_target sample_sid sample_now
             (add_page sample_target sample_sid sample_now pdf_init) in
  let doc := output sample_target sample_sid sample_now c in
  (1 <= 2 <= page doc)%nat
  /\ (painted_on InHeader 2 (trace doc) <-> 2%nat <> 1%nat)
  /\ painted_on InFooter 2 (trace doc).
Proof.
  cbn zeta.
  assert (Hp : (1 <= 2 <= page (output sample_target sample_sid sample_now
                  (add_page sample_target sample_sid sample_now
                     (add_page sample_target sample_sid sample_now pdf_init))))%nat)
    by (vm_compute; lia).
  split; [exact Hp |].
  apply (header_footer_on_pages sample_target sample_sid sample_now
           fixed_pitch_width [SAddPage; SAddPage] _ 2 eq_refl Hp).
Defined.


Lemma kv_row_not_split_witness :
  let c := add_page sample_target sample_sid sample_now pdf_init in
  (1 <= page c)%nat
  /\ pdf_x (kv_row sample_target sample_sid sample_now "OS" "Linux" true c)
     = l_margin.
Proof.
  cbn zeta.
  assert (H : (1 <= page (add_page sample_target sample_sid sample_now
                            pdf_init))%nat) by (vm_compute; lia).
  split; [exact H |].
  destruct (kv_row_not_split sample_target sample_sid sample_now
              "OS" "Linux" true _ H) as (d & y & _ & _ & Hx & _).
  exact Hx.
Defined.


Lemma page_break_lands_in_header_bar_witness :
  let c := ln 270 (add_page sample_target sample_sid sample_now pdf_init) in
  (1 <= page c)%nat /\ will_page_break 6.5 c = true
  /\ exists y, y == 5.5 /\ y < 10.
Proof.
  cbn zeta.
  assert (H : (1 <= page (ln 270 (add_page sample_target sample_sid sample_now
                                    pdf_init)))%nat) by (vm_compute; lia).
  assert (Hb : will_page_break 6.5
                 (ln 270 (add_page sample_target sample_sid sample_now pdf_init))
               = true) by reflexivity.
  refine (conj H (conj Hb _)).
  destruct (page_break_lands_in_header_bar sample_target sample_sid sample_now
              0 6.5 "row" "L" false LMARGIN NEXT _ H Hb)
    as (pre & y & _ & _ & Hy & _ & Hlt).
  exists y. exact (conj Hy Hlt).
Defined.


Lemma body_height_is_measured_height_witness :
  let c := add_page sample_target sample_sid sample_now pdf_init in
  let s := set_x (l_margin + 2)
             (set_text_color C_MID (set_font "Sans" "" 9.5 c)) in
  let lines := multi_cell_dry_run fixed_pitch_width 0 5.5 "Root login succeeded." s in
  (1 <= page c)%nat
  /\ pdf_y c + len lines * 5.5 <= page_break_trigger
  /\ pdf_x (body sample_target sample_sid sample_now fixed_pitch_width
              "Root login succeeded." 2 c) = l_margin.
Proof.
  cbn zeta.
  assert (H : (1 <= page (add_page sample_target sample_sid sample_now
                            pdf_init))%nat) by (vm_compute; lia).
  split; [exact H |].
  match goal with |- ?G /\ _ => assert (Hfit : G) by (vm_compute; discriminate) end.
  split; [exact Hfit |].
  destruct (body_height_is_measured_height sample_target sample_sid sample_now
              fixed_pitch_width "Root login succeeded." 2 _ H Hfit)
    as (_ & _ & Hx).
  exact Hx.
Defined.

(** On page 1 at the margins, [score_bar] for score 150 on a bar of width
    100 paints an overlay of width 150, beyond the bar and beyond the
    clamped value 100. *)
Lemma score_bar_overlay_not_clamped :
  let c := add_page sample_target sample_sid sample_now pdf_init in
  overlay_painted sample_target sample_sid sample_now sample_str
                  150 100 5 c ((150 / 100) * 100) C_GREEN
  /\ (150 / 100) * 100 == 150
  /\ clamp 0 100 ((150 / 100) * 100) == 100
  /\ ~ (150 / 100) * 100 == clamp 0 100 ((150 / 100) * 100).
Proof.
  cbn zeta. split.
  - apply (score_bar_rects sample_target sample_sid sample_now sample_str
             150 100 5).
  - vm_compute. repeat split; discriminate.
Qed.

Lemma score_bar_overlay_width_witness :
  let c := add_page sample_target sample_sid sample_now pdf_init in
  (1 <= page c)%nat
  /\ overlay_painted sample_target sample_sid sample_now sample_str
                     35 100 5 c ((35 / 100) * 100) C_RED.
Proof.
  cbn zeta.
  assert (H : (1 <= page (add_page sample_target sample_sid sample_now
                            pdf_init))%nat) by (vm_compute; lia).
  split; [exact H |].
  destruct (score_bar_overlay_width sample_target sample_sid sample_now
              sample_str 35 100 5 _ H) as (Hov & _).
  exact Hov.
Defined.

Lemma score_bar_fill_monotone_witness :
  let c := add_page sample_target sample_sid sample_now pdf_init in
  (1 <= page c)%nat /\ 0 <= 100 /\ 0 <= 35 /\ 35 < 92 /\ 92 <= 100
  /\ exists f1 f2,
       overlay_painted sample_target sample_sid sample_now sample_str
                       35 100 5 c f1 C_RED
       /\ overlay_painted sample_target sample_sid sample_now sample_str
                          92 100 5 c f2 C_GREEN
       /\ f1 <= f2.
Proof.
  cbn zeta.
  assert (H : (1 <= page (add_page sample_target sample_sid sample_now
                            pdf_init))%nat) by (vm_compute; lia).
  assert (Hw : 0 <= 100) by (vm_compute; discriminate).
  assert (H1 : 0 <= 35) by (vm_compute; discriminate).
  assert (H12 : 35 < 92) by reflexivity.
  assert (H2 : 92 <= 100) by (vm_compute; discriminate).
  refine (conj H (conj Hw (conj H1 (conj H12 (conj H2 _))))).
  destruct (score_bar_fill_monotone sample_target sample_sid sample_now
              sample_str 100 5 35 92 _ H Hw H1 H12 H2)
    as (f1 & f2 & f0 & f100 & Ho1 & Ho2 & Hle & _).
  exists f1, f2. exact (conj Ho1 (conj Ho2 Hle)).
Defined.

(** With the cursor at x = 5, the label of score 5 on a bar of width 100
    would start at 5 + 5 - 14 = -4; the canvas reads that from the right
    edge of the page, so the label cell is painted at 206.0016, right of
    the whole bar, and not at x + fill_w - 14 left of it. *)
Lemma score_bar_label_wraps_to_right :
  let c := set_x 5 (add_page sample_target sample_sid sample_now pdf_init) in
  let label_x := from_right (pdf_x c + score_bar_fill_w 5 100 - 14) in
  (exists pre pg ly y' fg f,
     trace (score_bar sample_target sample_sid sample_now sample_str 5 100 5 c)
     = pre ++ [ mkPaint pg ly (Cell label_x y' 14 5 "5/100" "R" None fg f) ])
  /\ pdf_x c == 5
  /\ label_x == pdf_w - 4
  /\ ~ label_x == pdf_x c + (5 / 100) * 100 - 14
  /\ pdf_x c + 100 < label_x.
Proof.
  cbn zeta. split.
  - apply (score_bar_label sample_target sample_sid sample_now sample_str
             5 100 5).
  - vm_compute. repeat split; discriminate.
Qed.

Lemma score_bar_label_left_of_bar_witness :
  let c := set_x 38 (add_page sample_target sample_sid sample_now pdf_init) in
  (1 <= page c)%nat
  /\ 0 <= pdf_x c + (5 / 100) * 100 - 14
  /\ (5 / 100) * 100 < 14
  /\ score_bar_label_x (pdf_x c) 5 100 < pdf_x c.
Proof.
  cbn zeta.
  assert (H : (1 <= page (set_x 38 (add_page sample_target sample_sid sample_now
                                      pdf_init)))%nat) by (vm_compute; lia).
  assert (Hpos : 0 <= pdf_x (set_x 38 (add_page sample_target sample_sid
                                         sample_now pdf_init))
                      + (5 / 100) * 100 - 14) by (vm_compute; discriminate).
  assert (Hlt : (5 / 100) * 100 < 14) by reflexivity.
  refine (conj H (conj Hpos (conj Hlt _))).
  destruct (score_bar_label_left_of_bar sample_target sample_sid sample_now
              sample_str 5 100 5 _ H Hpos)
    as (_ & _ & _ & Hleft & _).
  apply Hleft. exact Hlt.
Defined.




Lemma code_block_on_one_page_witness :
  let c := add_page sample_target sample_sid sample_now pdf_init in
  (1 <= page c)%nat /\ 0 <= pdf_x c /\ 0 <= pdf_y c
  /\ code_block_height "ls -la" <= pdf_h - b_margin - 5.5
  /\ page (code_block sample_target sample_sid sample_now fixed_pitch_width
             "ls -la" "bash" c) = 1%nat.
Proof.
  cbn zeta.
  assert (H : (1 <= page (add_page sample_target sample_sid sample_now
                            pdf_init))%nat) by (vm_compute; lia).
  assert (Hx : 0 <= pdf_x (add_page sample_target sample_sid sample_now pdf_init))
    by (vm_compute; discriminate).
  assert (Hy : 0 <= pdf_y (add_page sample_target sample_sid sample_now pdf_init))
    by (vm_compute; discriminate).
  assert (Hh : code_block_height "ls -la" <= pdf_h - b_margin - 5.5)
    by (vm_compute; discriminate).
  refine (conj H (conj Hx (conj Hy (conj Hh _)))).
  destruct (code_block_on_one_page sample_target sample_sid sample_now
              fixed_pitch_width "ls -la" "bash" _ H Hx Hy Hh) as ((Hpg & _) & _).
  rewrite Hpg. reflexivity.
Defined.

Lemma pattern_card_on_one_page_witness :
  let c := add_page sample_target sample_sid sample_now pdf_init in
  (1 <= page c)%nat /\ 0 <= pdf_x c /\ 0 <= pdf_y c
  /\ card_height (card_measured_lines fixed_pitch_width sample_pattern c)
     <= pdf_h - b_margin - 5.5
  /\ (List.length (card_painted_lines fixed_pitch_width sample_pattern c)
      <= List.length (card_measured_lines fixed_pitch_width sample_pattern c))%nat
  /\ page (pattern_card sample_target sample_sid sample_now fixed_pitch_width
             C_POS_BG C_GREEN "✓" sample_pattern c) = 1%nat.
Proof.
  cbn zeta.
  assert (H : (1 <= page (add_page sample_target sample_sid sample_now
                            pdf_init))%nat) by (vm_compute; lia).
  assert (Hx : 0 <= pdf_x (add_page sample_target sample_sid sample_now pdf_init))
    by (vm_compute; discriminate).
  assert (Hy : 0 <= pdf_y (add_page sample_target sample_sid sample_now pdf_init))
    by (vm_compute; discriminate).
  match goal with |- _ /\ _ /\ _ /\ ?A /\ ?B /\ _ =>
    assert (Hh : A) by (vm_compute; discriminate);
    assert (Hl : B) by (vm_compute; lia) end.
  refine (conj H (conj Hx (conj Hy (conj Hh (conj Hl _))))).
  destruct (pattern_card_on_one_page sample_target sample_sid sample_now
              fixed_pitch_width C_POS_BG C_GREEN "✓" sample_pattern _
              H Hx Hy Hh Hl) as ((Hpg & _) & _).
  rewrite Hpg. reflexivity.
Defined.

(** A short run is reported in full: exit code, then the captured output. *)
Lemma completed_report_bounded_witness :
  (fun _ : string => Completed 0 "ok" "") "id" = Completed 0 "ok" ""
  /\ execute_shell_cmd (fun _ => Completed 0 "ok" "") "id"
     = ("Exit code: 0" ++ nl ++ nl ++ "--- STDOUT ---" ++ nl ++ "ok")%string.
Proof.
  split; [reflexivity |].
  destruct (completed_report_bounded (fun _ => Completed 0 "ok" "") "id"
              0 "ok" "" eq_refl) as (_ & _ & H).
  rewrite H; [reflexivity | vm_compute; lia].
Defined.

(** A package name with a final newline passes the name test. *)
Lemma package_name_accepted_witness :
  PACKAGE_NAME_RE_match ("nmap" ++ nl) = true
  /\ PACKAGE_NAME_RE_match "nmap; id" = false.
Proof.
  split.
  - apply package_name_accepted. exists "nmap".
    split; [reflexivity | split; [reflexivity | right; reflexivity]].
  - reflexivity.
Defined.

